(** * Harvard Art Explorer: the collection pipeline of [app.py]

    A shallow embedding of the two classes of [src/app.py] that carry the
    pipeline:

    - [HarvardArtMuseumDB]: [create_tables], [insert_artifacts] and
      [execute_query], over a model of the three SQLite tables the
      [CREATE TABLE] statements declare;
    - [HarvardArtAPI.fetch_artifacts]: the paginated fetch loop, over a
      catalog that answers each page request.

    Raw records are Python dictionaries as [response.json()] builds them.
    SQLite and pandas are libraries the program calls; what the statements
    of the source do in them (binding of parameters, [INSERT OR REPLACE],
    rowid assignment) is written out next to each statement. *)

From Stdlib Require Import ZArith List String Bool Lia PrimFloat.
Import ListNotations.
Local Open Scope string_scope.
Local Open Scope list_scope.
Local Open Scope Z_scope.

Set Warnings "-register-all".

(** ** Python values *)

(** What [json.loads] yields: [None], booleans, integers, floats, strings,
    lists and dictionaries with string keys. *)
Inductive value : Type :=
| VNone
| VBool (b : bool)
| VInt (z : Z)
| VFloat (f : float)
| VStr (s : string)
| VList (l : list value)
| VDict (d : list (string * value)).

(** A dictionary is kept as its items; a key occurs once. *)
Definition dict := list (string * value).

(** [d.get(key, default)] *)
Fixpoint dict_get (d : dict) (key : string) (default : value) : value :=
  match d with
  | [] => default
  | (k, v) :: d' => if String.eqb k key then v else dict_get d' key default
  end.

(** [d.get(key)]: the default is [None]. *)
Definition get (d : dict) (key : string) : value := dict_get d key VNone.

(** [key in d] *)
Fixpoint has_key (d : dict) (key : string) : bool :=
  match d with
  | [] => false
  | (k, _) :: d' => String.eqb k key || has_key d' key
  end.

(** Truth value of an object, as [if x:] tests it. *)
Definition truthy (v : value) : bool :=
  match v with
  | VNone => false
  | VBool b => b
  | VInt z => negb (Z.eqb z 0)
  | VFloat f => negb (PrimFloat.eqb f 0%float)
  | VStr s => negb (String.eqb s "")
  | VList l => match l with [] => false | _ => true end
  | VDict d => match d with [] => false | _ => true end
  end.

(** The one-character strings a [str] iterates over. *)
Fixpoint chars (s : string) : list value :=
  match s with
  | EmptyString => []
  | String c s' => VStr (String c EmptyString) :: chars s'
  end.

(** [iter(v)]: the elements of a list, the characters of a string, the keys
    of a dictionary; [None] where Python raises [TypeError]. *)
Definition iterate (v : value) : option (list value) :=
  match v with
  | VList l => Some l
  | VStr s => Some (chars s)
  | VDict d => Some (map (fun kv => VStr (fst kv)) d)
  | _ => None
  end.

(** ** SQLite values and parameter binding *)

(** The storage classes a bound parameter can have. *)
Inductive sqlval : Type :=
| SNull
| SInt (z : Z)
| SReal (f : float)
| SText (s : string).

(** What can go wrong in [cursor.execute]: the subclasses of [sqlite3.Error]
    that the [except sqlite3.Error] clause catches, and the one Python
    exception of the binding that it does not catch. *)
Inductive sqlite_error : Type :=
| UnsupportedType (position : nat)   (* "Error binding parameter": list or dict *)
| IncorrectBindings                  (* ProgrammingError: wrong number of parameters *)
| DatatypeMismatch.                  (* IntegrityError: datatype mismatch *)

Inductive exn : Type :=
| SqliteError (e : sqlite_error)     (* sqlite3.Error *)
| OverflowError                      (* Python int too large for SQLite INTEGER *)
| KeyError                           (* [d[key]] on a missing key *)
| AttributeError                     (* [.get] on an object that is not a dict *)
| TypeError                          (* iteration over an object that is not iterable *)
| RequestException                   (* [requests.get] could not get an answer *)
| JSONDecodeError.                   (* [response.json()] on a malformed body *)

(** A computation that returns or raises. *)
Inductive result (A : Type) : Type :=
| Ok (a : A)
| Raise (e : exn).
Arguments Ok {A} a.
Arguments Raise {A} e.

Definition bind {A B : Type} (m : result A) (k : A -> result B) : result B :=
  match m with
  | Ok a => k a
  | Raise e => Raise e
  end.

Notation "x <- m ;; k" := (bind m (fun x => k))
  (at level 61, m at next level, right associativity).

Definition min_int64 : Z := - 2 ^ 63.
Definition max_int64 : Z := 2 ^ 63 - 1.

Definition fits_int64 (z : Z) : bool := (min_int64 <=? z) && (z <=? max_int64).

(** How the [sqlite3] module binds one Python object at [position]: [None] is
    NULL, a [bool] is an [int], an [int] must fit 64 bits, a NaN float is
    stored as NULL, a [str] is TEXT; lists and dictionaries have no
    adapter. *)
Definition bind_param (position : nat) (v : value) : result sqlval :=
  match v with
  | VNone => Ok SNull
  | VBool b => Ok (SInt (if b then 1 else 0))
  | VInt z => if fits_int64 z then Ok (SInt z) else Raise OverflowError
  | VFloat f => Ok (if PrimFloat.is_nan f then SNull else SReal f)
  | VStr s => Ok (SText s)
  | VList _ | VDict _ => Raise (SqliteError (UnsupportedType position))
  end.

(** The parameters of a statement are bound from left to right; the first
    failure is the one raised. *)
Fixpoint bind_from (position : nat) (params : list value) : result (list sqlval) :=
  match params with
  | [] => Ok []
  | v :: params' =>
      b <- bind_param position v ;;
      bs <- bind_from (S position) params' ;;
      Ok (b :: bs)
  end.

Definition bind_parameters (params : list value) : result (list sqlval) :=
  bind_from 0 params.

(** ** The three tables of [create_tables] *)

(** [artifact_metadata]: [id INTEGER PRIMARY KEY] is the rowid of the row. *)
Record metadata_row : Type := MetadataRow {
  id : Z;
  title : sqlval;
  culture : sqlval;
  period : sqlval;
  century : sqlval;
  medium : sqlval;
  dimensions : sqlval;
  description : sqlval;
  department : sqlval;
  classification : sqlval;
  accessionyear : sqlval;
  accessionmethod : sqlval
}.

(** [artifact_media]: no key and no uniqueness constraint is declared. *)
Record media_row : Type := MediaRow {
  media_objectid : sqlval;
  imagecount : sqlval;
  mediacount : sqlval;
  colorcount : sqlval;
  rank : sqlval;
  datebegin : sqlval;
  dateend : sqlval
}.

(** [artifact_colors]: no key and no uniqueness constraint is declared. *)
Record colors_row : Type := ColorsRow {
  colors_objectid : sqlval;
  color : sqlval;
  spectrum : sqlval;
  hue : sqlval;
  percent : sqlval;
  css3 : sqlval
}.

(** The database file: each table is the list of its rows in insertion
    order. The [FOREIGN KEY] clauses are declared but never enforced, since
    no connection of the program turns [PRAGMA foreign_keys] on. *)
Record database : Type := Database {
  artifact_metadata : list metadata_row;
  artifact_media : list media_row;
  artifact_colors : list colors_row
}.

(** [create_tables] on a file that does not exist yet. *)
Definition create_tables : database := Database [] [] [].

(** ** Statements on an open connection *)

(** A statement runs on the database of the connection and either returns
    or raises; what earlier statements of the transaction wrote stays. *)
Definition stmt (A : Type) : Type := database -> database * result A.

Definition ret {A : Type} (a : A) : stmt A := fun db => (db, Ok a).

Definition raise {A : Type} (e : exn) : stmt A := fun db => (db, Raise e).

Definition lift {A : Type} (r : result A) : stmt A := fun db => (db, r).

Definition and_then {A B : Type} (m : stmt A) (k : A -> stmt B) : stmt B :=
  fun db =>
    match m db with
    | (db', Ok a) => k a db'
    | (db', Raise e) => (db', Raise e)
    end.

Notation "x <~ m ;; k" := (and_then m (fun x => k))
  (at level 61, m at next level, right associativity).
Notation "m ;;; k" := (and_then m (fun _ => k))
  (at level 61, right associativity).

(** The rowid SQLite gives a row inserted with a NULL [INTEGER PRIMARY KEY]:
    1 in an empty table, otherwise one more than the largest rowid in use.
    When the largest rowid is [max_int64] SQLite picks, at random, a
    positive rowid that is not in use, and the insertion succeeds; the
    model takes the smallest such rowid, which exists among the first
    [length t + 1] positive integers. Nothing below depends on which
    unused rowid is taken. *)
Definition largest_rowid (t : list metadata_row) : Z :=
  fold_right (fun r m => Z.max (id r) m) min_int64 t.

Definition rowid_in_use (t : list metadata_row) (k : Z) : bool :=
  existsb (fun m => id m =? k) t.

Definition unused_rowid (t : list metadata_row) : Z :=
  hd 1 (filter (fun k => negb (rowid_in_use t k))
               (map Z.of_nat (seq 1 (S (List.length t))))).

Definition new_rowid (t : list metadata_row) : result Z :=
  match t with
  | [] => Ok 1
  | _ :: _ =>
      if largest_rowid t <? max_int64 then Ok (largest_rowid t + 1)
      else Ok (unused_rowid t)
  end.

(** The rowid for the value bound to [id]. NULL asks for a new rowid and an
    integer is the rowid. Text and reals are refused with a datatype
    mismatch; SQLite first converts those that spell an integer, which the
    model leaves out: the results below that depend on the rowid of a
    record are stated for records whose [id] is an integer or absent
    ([colours_have_id], [may_write], [valid_record]). *)
Definition rowid_for (t : list metadata_row) (v : sqlval) : result Z :=
  match v with
  | SNull => new_rowid t
  | SInt z => Ok z
  | SReal _ | SText _ => Raise (SqliteError DatatypeMismatch)
  end.

(** [OR REPLACE] on the primary key: the rows that hold the new row's [id]
    are deleted, then the new row is inserted. *)
Definition replace_metadata (row : metadata_row) (t : list metadata_row)
  : list metadata_row :=
  filter (fun r => negb (id r =? id row)) t ++ [row].

(** [INSERT OR REPLACE INTO artifact_metadata (id, title, ...) VALUES (?, ...)] *)
Definition execute_insert_metadata (params : list value) : stmt unit :=
  fun db =>
    match bind_parameters params with
    | Raise e => (db, Raise e)
    | Ok [i; t; c; p; ce; m; d; de; dp; cl; ay; am] =>
        match rowid_for (artifact_metadata db) i with
        | Raise e => (db, Raise e)
        | Ok z =>
            let row := MetadataRow z t c p ce m d de dp cl ay am in
            (Database (replace_metadata row (artifact_metadata db))
                      (artifact_media db) (artifact_colors db), Ok tt)
        end
    | Ok _ => (db, Raise (SqliteError IncorrectBindings))
    end.

(** [INSERT OR REPLACE INTO artifact_media (objectid, ...) VALUES (?, ...)]:
    the table has no key, so no row ever conflicts with the new one and
    [OR REPLACE] deletes nothing. *)
Definition execute_insert_media (params : list value) : stmt unit :=
  fun db =>
    match bind_parameters params with
    | Raise e => (db, Raise e)
    | Ok [o; i; m; c; r; b; e] =>
        (Database (artifact_metadata db)
                  (artifact_media db ++ [MediaRow o i m c r b e])
                  (artifact_colors db), Ok tt)
    | Ok _ => (db, Raise (SqliteError IncorrectBindings))
    end.

(** [INSERT INTO artifact_colors (objectid, ...) VALUES (?, ...)] *)
Definition execute_insert_colors (params : list value) : stmt unit :=
  fun db =>
    match bind_parameters params with
    | Raise e => (db, Raise e)
    | Ok [o; c; s; h; p; css] =>
        (Database (artifact_metadata db) (artifact_media db)
                  (artifact_colors db ++ [ColorsRow o c s h p css]), Ok tt)
    | Ok _ => (db, Raise (SqliteError IncorrectBindings))
    end.

(** ** [HarvardArtMuseumDB.insert_artifacts] *)

(** The tuple of lines 111-124. *)
Definition metadata_params (artifact : dict) : list value :=
  [ get artifact "id"; get artifact "title"; get artifact "culture";
    get artifact "period"; get artifact "century"; get artifact "medium";
    get artifact "dimensions"; get artifact "description";
    get artifact "department"; get artifact "classification";
    get artifact "accessionyear"; get artifact "accessionmethod" ].

(** The tuple of lines 131-139. *)
Definition media_params (artifact : dict) : list value :=
  [ get artifact "id";
    dict_get artifact "imagecount" (VInt 0);
    dict_get artifact "mediacount" (VInt 0);
    dict_get artifact "colorcount" (VInt 0);
    dict_get artifact "rank" (VInt 0);
    dict_get artifact "datebegin" (VInt 0);
    dict_get artifact "dateend" (VInt 0) ].

(** The tuple of lines 148-155; [color.get] needs [color] to be a dict. *)
Definition colors_params (artifact : dict) (color : value) : result (list value) :=
  match color with
  | VDict c =>
      Ok [ get artifact "id"; get c "color"; get c "spectrum"; get c "hue";
           get c "percent"; get c "css3" ]
  | _ => Raise AttributeError
  end.

(** [artifact['colors']] *)
Definition subscript (d : dict) (key : string) : result value :=
  if has_key d key then Ok (get d key) else Raise KeyError.

(** The [for color in artifact['colors']] loop of lines 143-155. *)
Fixpoint insert_colors (artifact : dict) (colors : list value) : stmt unit :=
  match colors with
  | [] => ret tt
  | color :: colors' =>
      params <~ lift (colors_params artifact color) ;;
      execute_insert_colors params ;;;
      insert_colors artifact colors'
  end.

(** The body of the [try] of lines 104-155, up to the increment of the
    counter. *)
Definition insert_one (artifact : dict) : stmt unit :=
  execute_insert_metadata (metadata_params artifact) ;;;
  execute_insert_media (media_params artifact) ;;;
  if truthy (get artifact "colors") then
    v <~ lift (subscript artifact "colors") ;;
    match iterate v with
    | Some colors => insert_colors artifact colors
    | None => raise TypeError
    end
  else ret tt.

(** What a call leaves behind when it returns: the committed database, the
    value returned and the errors shown with [st.error], oldest first. *)
Record insert_report : Type := InsertReport {
  committed : database;
  inserted_count : Z;
  reported : list sqlite_error
}.

(** The [for artifact in artifacts_data] loop. A [sqlite3.Error] is reported
    and the loop continues with what the record wrote so far; any other
    exception leaves the function before [conn.commit()]. *)
Fixpoint insert_loop (artifacts_data : list dict) (db : database)
    (count : Z) (errors : list sqlite_error) : result insert_report :=
  match artifacts_data with
  | [] => Ok (InsertReport db count errors)
  | artifact :: rest =>
      match insert_one artifact db with
      | (db', Ok _) => insert_loop rest db' (count + 1) errors
      | (db', Raise (SqliteError e)) => insert_loop rest db' count (errors ++ [e])
      | (_, Raise e) => Raise e
      end
  end.

Definition insert_artifacts (db : database) (artifacts_data : list dict)
  : result insert_report :=
  insert_loop artifacts_data db 0 [].

(** ** [HarvardArtMuseumDB.execute_query] *)

(** A [pandas.DataFrame] as far as the program looks at it: column names
    and rows. *)
Record DataFrame : Type := MkDataFrame {
  columns : list string;
  rows : list (list sqlval)
}.

(** [pd.DataFrame()] *)
Definition empty_DataFrame : DataFrame := MkDataFrame [] [].

(** [df.empty] *)
Definition empty (df : DataFrame) : bool :=
  match columns df, rows df with
  | _ :: _, _ :: _ => false
  | _, _ => true
  end.

(** What [pd.read_sql_query(query, conn)] does: it hands back a frame or
    raises an exception with a message. *)
Inductive read_outcome : Type :=
| Frame (df : DataFrame)
| QueryException (message : string).

(** What the caller of [execute_query] gets back, and what was shown with
    [st.error] on the way. *)
Record query_report : Type := QueryReport {
  returned : DataFrame;
  shown : list string
}.

Section ExecuteQuery.

(** The SQL engine behind pandas is taken as it comes: any function from
    the query text and the database to a frame or an exception. *)
Variable read_sql_query : string -> database -> read_outcome.

Definition execute_query (db : database) (query : string) : query_report :=
  match read_sql_query query db with
  | Frame df => QueryReport df []
  | QueryException e => QueryReport empty_DataFrame ["Query error: " ++ e]%string
  end.

End ExecuteQuery.

(** The returned frame tells the caller what went wrong: [describe] reads
    the message of every failed query off the frame [execute_query]
    returns. *)
Definition describes_errors (describe : DataFrame -> option string) : Prop :=
  forall read_sql_query db query message,
    read_sql_query query db = QueryException message ->
    describe (returned (execute_query read_sql_query db query)) = Some message.

(** ** [HarvardArtAPI.fetch_artifacts] *)

(** The body of an HTTP answer, as [response.json()] sees it. *)
Inductive json_body : Type :=
| Malformed
| Parsed (data : value).

(** What [requests.get] comes back with. *)
Inductive http_answer : Type :=
| NoAnswer
| Response (status_code : Z) (body : json_body).

(** The remote catalog: its answer to the request for each page. The loop
    asks for every page at most once. *)
Definition catalog : Type := Z -> http_answer.

(** [response.json()] *)
Definition json (body : json_body) : result value :=
  match body with
  | Malformed => Raise JSONDecodeError
  | Parsed data => Ok data
  end.

(** [data.get('records')] and [data['records']] on whatever was parsed. *)
Definition value_get (data : value) (key : string) : result value :=
  match data with
  | VDict d => Ok (get d key)
  | _ => Raise AttributeError
  end.

Definition value_subscript (data : value) (key : string) : result value :=
  match data with
  | VDict d => subscript d key
  | _ => Raise TypeError
  end.

(** [all_artifacts.extend(x)] *)
Definition extend (all_artifacts : list value) (x : value) : result (list value) :=
  match iterate x with
  | Some items => Ok (all_artifacts ++ items)
  | None => Raise TypeError
  end.

(** How one pass through the [try] block of lines 195-224 ends. *)
Inductive pass : Type :=
| NextPage (all_artifacts : list value)   (* line 219: [page += 1] *)
| NoRecords                               (* line 211: [break] *)
| ApiError (status_code : Z).             (* lines 223-224: [st.error], [break] *)

Definition request_page (c : catalog) (all_artifacts : list value) (page : Z)
  : result pass :=
  match c page with
  | NoAnswer => Raise RequestException
  | Response status_code body =>
      if status_code =? 200 then
        data <- json body ;;
        records <- value_get data "records" ;;
        if negb (truthy records) then Ok NoRecords
        else
          records' <- value_subscript data "records" ;;
          all_artifacts' <- extend all_artifacts records' ;;
          Ok (NextPage all_artifacts')
      else Ok (ApiError status_code)
  end.

(** What [st.error] shows when the loop is left on a failure. *)
Inductive fetch_message : Type :=
| ApiErrorMessage (status_code : Z)       (* "API Error {status_code}" *)
| ErrorMessage (e : exn).                 (* "Error: {e}" *)

(** The list returned, the number of calls of [requests.get] and the
    messages shown. *)
Record fetch_report : Type := FetchReport {
  artifacts : list value;
  requests : Z;
  messages : list fetch_message
}.

(** [l[:limit]] *)
Definition slice_to (l : list value) (limit : Z) : list value :=
  if limit <? 0 then firstn (Z.to_nat (Z.of_nat (List.length l) + limit)) l
  else firstn (Z.to_nat limit) l.

(** The [while len(all_artifacts) < limit] loop, with the [except Exception]
    clause that turns every exception of the body into a message and a
    [break]. [fuel] bounds the passes; [None] means it ran out. *)
Fixpoint fetch_loop (fuel : nat) (c : catalog) (limit : Z)
    (all_artifacts : list value) (page : Z) (calls : Z) : option fetch_report :=
  if Z.of_nat (List.length all_artifacts) <? limit then
    match fuel with
    | O => None
    | S fuel' =>
        match request_page c all_artifacts page with
        | Ok (NextPage all_artifacts') =>
            fetch_loop fuel' c limit all_artifacts' (page + 1) (calls + 1)
        | Ok NoRecords =>
            Some (FetchReport (slice_to all_artifacts limit) (calls + 1) [])
        | Ok (ApiError status_code) =>
            Some (FetchReport (slice_to all_artifacts limit) (calls + 1)
                              [ApiErrorMessage status_code])
        | Raise e =>
            Some (FetchReport (slice_to all_artifacts limit) (calls + 1)
                              [ErrorMessage e])
        end
    end
  else Some (FetchReport (slice_to all_artifacts limit) calls []).

(** Every pass that goes on adds a record, so [limit] passes and the last
    test of the loop condition are all the loop can make. *)
Definition fetch_artifacts (c : catalog) (limit : Z) : option fetch_report :=
  fetch_loop (S (Z.to_nat limit)) c limit [] 1 0.

(** ** Properties of a database and of a batch *)

(** The value stored in an [objectid] column names the row with rowid [z]. *)
Definition references (v : sqlval) (z : Z) : bool :=
  match v with
  | SInt z' => z' =? z
  | _ => false
  end.

(** Every row of [artifact_colors] has the [id] of a row of
    [artifact_metadata] as its [objectid]. *)
Definition referentially_complete (db : database) : bool :=
  forallb (fun c => existsb (fun m => references (colors_objectid c) (id m))
                            (artifact_metadata db))
          (artifact_colors db).

(** The rows of [artifact_metadata] with a given [id], and the rows of
    [artifact_media] of a given object. *)
Definition metadata_of (z : Z) (db : database) : list metadata_row :=
  filter (fun m => id m =? z) (artifact_metadata db).

Definition media_of (z : Z) (db : database) : list media_row :=
  filter (fun m => references (media_objectid m) z) (artifact_media db).

(** The primary key holds: no two rows of [artifact_metadata] share an
    [id]. *)
Definition unique_ids (db : database) : Prop :=
  NoDup (map id (artifact_metadata db)).

(** The record carries an integer as its [id]. *)
Definition integer_id (artifact : dict) : bool :=
  match get artifact "id" with
  | VInt z => fits_int64 z
  | VBool _ => true
  | _ => false
  end.

(** The record carries no [id], or [None]. *)
Definition lacks_id (artifact : dict) : bool :=
  match get artifact "id" with
  | VNone => true
  | _ => false
  end.

(** A scalar that [bind_param] accepts. *)
Definition bindable (v : value) : bool :=
  match v with
  | VInt z => fits_int64 z
  | VList _ | VDict _ => false
  | _ => true
  end.

(** An entry of [colors] that [colors_params] and the binding accept. *)
Definition valid_color (color : value) : bool :=
  match color with
  | VDict c =>
      forallb bindable
        [get c "color"; get c "spectrum"; get c "hue"; get c "percent"; get c "css3"]
  | _ => false
  end.

(** Everything but the [id] is as the catalog documents it: scalars in the
    columns, and [colors] absent, empty or a list of colour entries. *)
Definition valid_fields (artifact : dict) : bool :=
  forallb bindable (tl (metadata_params artifact))
  && forallb bindable (tl (media_params artifact))
  && match get artifact "colors" with
     | VList colors => forallb valid_color colors
     | v => negb (truthy v)
     end.

(** A valid record with an identifier: an integer that fits 64 bits, and
    valid fields. *)
Definition valid_record (artifact : dict) : bool :=
  match get artifact "id" with
  | VInt z => fits_int64 z
  | VBool _ => true
  | _ => false
  end
  && valid_fields artifact.

(** The value a parameter is stored as when its binding succeeds. *)
Definition bound (v : value) : sqlval :=
  match bind_param 0 v with
  | Ok s => s
  | Raise _ => SNull
  end.

(** The row the metadata statement writes for a record under rowid [z],
    and the row the media statement writes. *)
Definition metadata_row_of (z : Z) (artifact : dict) : metadata_row :=
  MetadataRow z
    (bound (get artifact "title")) (bound (get artifact "culture"))
    (bound (get artifact "period")) (bound (get artifact "century"))
    (bound (get artifact "medium")) (bound (get artifact "dimensions"))
    (bound (get artifact "description")) (bound (get artifact "department"))
    (bound (get artifact "classification"))
    (bound (get artifact "accessionyear"))
    (bound (get artifact "accessionmethod")).

Definition media_row_of (artifact : dict) : media_row :=
  MediaRow (bound (get artifact "id"))
    (bound (dict_get artifact "imagecount" (VInt 0)))
    (bound (dict_get artifact "mediacount" (VInt 0)))
    (bound (dict_get artifact "colorcount" (VInt 0)))
    (bound (dict_get artifact "rank" (VInt 0)))
    (bound (dict_get artifact "datebegin" (VInt 0)))
    (bound (dict_get artifact "dateend" (VInt 0))).

Definition colors_row_of (artifact c : dict) : colors_row :=
  ColorsRow (bound (get artifact "id"))
    (bound (get c "color")) (bound (get c "spectrum")) (bound (get c "hue"))
    (bound (get c "percent")) (bound (get c "css3")).

(** The record may write the metadata row with rowid [z]: its [id] is [z],
    or a text or a real, which SQLite may convert to [z]. A record without
    [id] gets a rowid that is not in use. *)
Definition may_write (artifact : dict) (z : Z) : bool :=
  match get artifact "id" with
  | VNone => false
  | VBool b => (if b then 1 else 0) =? z
  | VInt z' => z' =? z
  | VFloat _ | VStr _ => true
  | VList _ | VDict _ => false
  end.

(** The record has an integer [id] if it has colours. *)
Definition colours_have_id (artifact : dict) : bool :=
  negb (truthy (get artifact "colors")) || integer_id artifact.

(** The columns that hold text, with the key each is read from. *)
Definition text_columns : list (string * (metadata_row -> sqlval)) :=
  [ ("title", title); ("culture", culture); ("period", period);
    ("century", century); ("medium", medium); ("dimensions", dimensions);
    ("description", description); ("department", department);
    ("classification", classification); ("accessionmethod", accessionmethod) ].

(** A page of the catalog that the loop accepts and goes on from: status
    200 and a JSON object whose [records] is a list that is not empty. *)
Definition serves (c : catalog) (page : Z) (records : list value) : Prop :=
  exists d, c page = Response 200 (Parsed (VDict d))
            /\ get d "records" = VList records
            /\ records <> [].

(** The states a run of the loop goes through at the loop test: the list
    accumulated, the next page and the number of requests made so far. *)
Inductive reaches (c : catalog) (limit : Z) : list value -> Z -> Z -> Prop :=
| reaches_start : reaches c limit [] 1 0
| reaches_next all_artifacts page calls all_artifacts' :
    reaches c limit all_artifacts page calls ->
    Z.of_nat (List.length all_artifacts) < limit ->
    request_page c all_artifacts page = Ok (NextPage all_artifacts') ->
    reaches c limit all_artifacts' (page + 1) (calls + 1).

(** The catalog serves [pages] one after the other, starting at [page]. *)
Fixpoint served_from (c : catalog) (page : Z) (pages : list (list value)) : Prop :=
  match pages with
  | [] => True
  | records :: pages' => serves c page records /\ served_from c (page + 1) pages'
  end.

(** A page without records: status 200 and a JSON object whose [records] is
    absent or empty. *)
Definition exhausted (c : catalog) (page : Z) : Prop :=
  exists d, c page = Response 200 (Parsed (VDict d))
            /\ truthy (get d "records") = false.

(** A page request that fails: a status other than 200, or a body that is
    not JSON. *)
Definition fails (a : http_answer) : Prop :=
  match a with
  | NoAnswer => False
  | Response status_code body => status_code <> 200 \/ body = Malformed
  end.

(** ** More about a batch *)

(** The number of entries of the record's [colors] list. *)
Definition colour_entries (artifact : dict) : nat :=
  match get artifact "colors" with
  | VList colors => List.length colors
  | _ => 0%nat
  end.

(** The columns of [artifact_media] that hold counters, with the key each
    is read from. *)
Definition counter_columns : list (string * (media_row -> sqlval)) :=
  [ ("imagecount", imagecount); ("mediacount", mediacount);
    ("colorcount", colorcount); ("rank", rank);
    ("datebegin", datebegin); ("dateend", dateend) ].

(** The rowid an integer [id] stands for. *)
Definition record_id (artifact : dict) : Z :=
  match get artifact "id" with
  | VInt z => z
  | VBool b => if b then 1 else 0
  | _ => 0
  end.

(** What the metadata statements of a batch of records with integer ids
    make of a table. *)
Definition write_all (batch : list dict) (t : list metadata_row)
  : list metadata_row :=
  fold_left (fun t a => replace_metadata (metadata_row_of (record_id a) a) t)
            batch t.

(** The row has the id of a record of the batch. *)
Definition written_by (batch : list dict) (m : metadata_row) : bool :=
  existsb (Z.eqb (id m)) (map record_id batch).

(** [n] calls of [insert_artifacts] with the same batch, one after the
    other, each on the database the call before committed. *)
Fixpoint insert_times (n : nat) (db : database) (batch : list dict)
  : result database :=
  match n with
  | O => Ok db
  | S n' =>
      match insert_artifacts db batch with
      | Ok rep => insert_times n' (committed rep) batch
      | Raise e => Raise e
      end
  end.

(** The object is a dictionary, so it has a [get] method. *)
Definition is_dict (v : value) : bool :=
  match v with
  | VDict _ => true
  | _ => false
  end.

(** The record with the three counters given as 0. *)
Definition with_zero_counters (artifact : dict) : dict :=
  ("imagecount", VInt 0) :: ("mediacount", VInt 0) :: ("colorcount", VInt 0)
  :: artifact.

(** An object for which [sqlite3] has no adapter, and an [int] that does
    not fit 64 bits. *)
Definition unsupported (v : value) : bool :=
  match v with
  | VList _ | VDict _ => true
  | _ => false
  end.

Definition overflows (v : value) : bool :=
  match v with
  | VInt z => negb (fits_int64 z)
  | _ => false
  end.

(** ** Sample data *)

Module Sample.

Definition grey : value :=
  VDict [ ("color", VStr "#c8c8af"); ("spectrum", VStr "#8c5fa8");
          ("hue", VStr "Grey"); ("percent", VFloat 0.5%float);
          ("css3", VStr "#c0c0c0") ].

(** A record as the catalog serves it. *)
Definition vase : dict :=
  [ ("id", VInt 1); ("title", VStr "Vase"); ("culture", VStr "Greek");
    ("imagecount", VInt 3); ("colors", VList [grey]) ].

(** The same object, fetched again after the catalog changed it. *)
Definition vase' : dict :=
  [ ("id", VInt 1); ("title", VStr "Amphora"); ("culture", VStr "Greek");
    ("imagecount", VInt 4); ("colors", VList [grey]) ].

(** A record without [id]. *)
Definition nameless : dict :=
  [ ("title", VStr "Untitled"); ("colors", VList [grey]) ].

(** A record with nothing but its [id]. *)
Definition bare (z : Z) : dict := [ ("id", VInt z) ].

(** Nine records with an id and one without. *)
Definition ten : list dict :=
  map bare [1; 2; 3; 4; 5] ++ nameless :: map bare [7; 8; 9; 10].

(** Pages of the catalog. *)
Definition page_of (n : nat) : http_answer :=
  Response 200 (Parsed (VDict [("records", VList (repeat (VDict vase) n))])).

(** Two full pages, a page of 50 and then nothing. *)
Definition short_third : catalog :=
  fun page =>
    if page =? 1 then page_of 100
    else if page =? 2 then page_of 100
    else if page =? 3 then page_of 50
    else page_of 0.

(** One full page, then the server fails. *)
Definition failing_second : catalog :=
  fun page => if page =? 1 then page_of 100 else Response 500 Malformed.

(** What a batch leaves in a new database. *)
Definition after (db : database) (batch : list dict) : insert_report :=
  match insert_artifacts db batch with
  | Ok rep => rep
  | Raise _ => InsertReport db 0 []
  end.

(** An engine that rejects every query with the same message. *)
Definition rejecting (message : string) : string -> database -> read_outcome :=
  fun _ _ => QueryException message.

(** An engine that finds no row. *)
Definition finding_nothing : string -> database -> read_outcome :=
  fun _ _ => Frame (MkDataFrame ["id"; "title"] []).

(** A record whose title is a list, and one whose image count is. *)
Definition listed_title : dict :=
  [ ("id", VInt 3); ("title", VList [VStr "a"; VStr "b"]) ].

Definition listed_count : dict :=
  [ ("id", VInt 4); ("title", VStr "Bowl"); ("imagecount", VList []) ].


(** A record with a colour entry that is not a dictionary. *)
Definition odd_colour : dict :=
  [ ("id", VInt 5); ("colors", VList [grey; VStr "red"]) ].

(** A record whose counters are present and null. *)
Definition null_counters : dict :=
  [ ("id", VInt 6); ("imagecount", VNone); ("rank", VNone) ].

(** A catalog that never runs out: page [n] holds 100 records. *)
Definition endless : catalog := fun _ => page_of 100.

(** A catalog that does not answer. *)
Definition unreachable : catalog := fun _ => NoAnswer.

(** A catalog whose second page is a JSON array instead of an object. *)
Definition array_second : catalog :=
  fun page =>
    if page =? 1 then page_of 100 else Response 200 (Parsed (VList [])).

End Sample.

(** * Results *)

(** ** Binding *)

Lemma bind_param_bound (position : nat) (v : value) (s : sqlval) :
  bind_param position v = Ok s -> s = bound v.
Proof.
  unfold bound; destruct v; simpl; try congruence.
  destruct (fits_int64 z); congruence.
Qed.

Lemma bindable_bind_param (position : nat) (v : value) :
  bindable v = true -> bind_param position v = Ok (bound v).
Proof.
  unfold bound; destruct v; simpl; try congruence.
  intros ->; reflexivity.
Qed.

Lemma bind_param_bindable (position : nat) (v : value) (s : sqlval) :
  bind_param position v = Ok s -> bindable v = true.
Proof.
  destruct v; simpl; try congruence.
  destruct (fits_int64 z); congruence.
Qed.

Lemma bind_from_bound (params : list value) :
  forall position bs,
    bind_from position params = Ok bs -> bs = map bound params.
Proof.
  induction params as [|v params IH]; simpl; intros position bs H.
  - congruence.
  - destruct (bind_param position v) as [s|e] eqn:Hv; simpl in H; [|discriminate].
    destruct (bind_from (S position) params) as [bs'|e] eqn:Hps; simpl in H;
      [|discriminate].
    injection H as <-.
    rewrite (bind_param_bound _ _ _ Hv), (IH _ _ Hps); reflexivity.
Qed.

Lemma bind_from_bindable (params : list value) :
  forall position,
    forallb bindable params = true ->
    bind_from position params = Ok (map bound params).
Proof.
  induction params as [|v params IH]; simpl; intros position H.
  - reflexivity.
  - apply andb_prop in H as [Hv Hps].
    rewrite (bindable_bind_param _ _ Hv); simpl.
    rewrite (IH _ Hps); reflexivity.
Qed.

Lemma bind_from_head (v : value) (params : list value) (s : sqlval) :
  bind_param 0 v = Ok s ->
  forallb bindable params = true ->
  bind_parameters (v :: params) = Ok (map bound (v :: params)).
Proof.
  intros Hv Hps; unfold bind_parameters; simpl.
  rewrite Hv; simpl.
  rewrite (bind_from_bindable _ _ Hps); simpl.
  rewrite (bind_param_bound _ _ _ Hv); reflexivity.
Qed.

Lemma bind_from_ok_head (v : value) (params : list value) (bs : list sqlval) :
  bind_parameters (v :: params) = Ok bs -> bind_param 0 v = Ok (bound v).
Proof.
  unfold bind_parameters; simpl.
  destruct (bind_param 0 v) as [s|e] eqn:Hv; simpl; [|discriminate].
  intros _; rewrite (bind_param_bound _ _ _ Hv); reflexivity.
Qed.

(** ** Dictionaries *)

Lemma has_key_false_dict_get (d : dict) (key : string) (default : value) :
  has_key d key = false -> dict_get d key default = default.
Proof.
  induction d as [|[k v] d IH]; simpl; [reflexivity|].
  destruct (String.eqb k key); simpl; [discriminate|exact IH].
Qed.

Lemma dict_get_has_key (d : dict) (key : string) :
  get d key <> VNone -> has_key d key = true.
Proof.
  intros H; destruct (has_key d key) eqn:E; [reflexivity|].
  exfalso; apply H; unfold get; apply has_key_false_dict_get, E.
Qed.

Lemma truthy_subscript (d : dict) (key : string) :
  truthy (get d key) = true -> subscript d key = Ok (get d key).
Proof.
  intros H; unfold subscript.
  rewrite dict_get_has_key; [reflexivity|].
  intros E; rewrite E in H; discriminate.
Qed.

(** ** The three statements *)

Lemma execute_insert_metadata_ok (a : dict) (db db' : database) :
  execute_insert_metadata (metadata_params a) db = (db', Ok tt) ->
  exists z,
    bind_param 0 (get a "id") = Ok (bound (get a "id"))
    /\ forallb bindable (tl (metadata_params a)) = true
    /\ rowid_for (artifact_metadata db) (bound (get a "id")) = Ok z
    /\ db' = Database (replace_metadata (metadata_row_of z a) (artifact_metadata db))
                      (artifact_media db) (artifact_colors db).
Proof.
  unfold execute_insert_metadata.
  destruct (bind_parameters (metadata_params a)) as [bs|e] eqn:E; [|congruence].
  pose proof (bind_from_ok_head _ _ _ E) as Hid.
  assert (Hrest : forallb bindable (tl (metadata_params a)) = true).
  { unfold bind_parameters, metadata_params in E; simpl in E.
    repeat match type of E with
           | context [bind_param ?p ?v] =>
               let H := fresh "H" in
               destruct (bind_param p v) eqn:H; simpl in E; [|discriminate];
               apply bind_param_bindable in H
           end.
    simpl. repeat (apply andb_true_intro; split; [assumption|]). reflexivity. }
  apply bind_from_bound in E; subst bs; simpl.
  destruct (rowid_for (artifact_metadata db) (bound (get a "id"))) as [z|e] eqn:Hz;
    [|congruence].
  intros H; injection H as <-.
  exists z; repeat split; assumption.
Qed.

Lemma execute_insert_metadata_raise (params : list value) (db db' : database) (e : exn) :
  execute_insert_metadata params db = (db', Raise e) -> db' = db.
Proof.
  unfold execute_insert_metadata.
  destruct (bind_parameters params) as [bs|e0]; [|congruence].
  do 12 (destruct bs as [|? bs]; [congruence|]).
  destruct bs; [|congruence].
  destruct (rowid_for _ _); congruence.
Qed.

Lemma execute_insert_metadata_intro (a : dict) (db : database) (s : sqlval) (z : Z) :
  bind_param 0 (get a "id") = Ok s ->
  forallb bindable (tl (metadata_params a)) = true ->
  rowid_for (artifact_metadata db) s = Ok z ->
  execute_insert_metadata (metadata_params a) db
  = (Database (replace_metadata (metadata_row_of z a) (artifact_metadata db))
              (artifact_media db) (artifact_colors db), Ok tt).
Proof.
  intros Hid Hrest Hz; unfold execute_insert_metadata.
  change (metadata_params a) with (get a "id" :: tl (metadata_params a)).
  rewrite (bind_from_head _ _ _ Hid Hrest); simpl.
  rewrite <- (bind_param_bound _ _ _ Hid), Hz; reflexivity.
Qed.

Lemma execute_insert_media_ok (a : dict) (db db' : database) :
  execute_insert_media (media_params a) db = (db', Ok tt) ->
  db' = Database (artifact_metadata db) (artifact_media db ++ [media_row_of a])
                 (artifact_colors db).
Proof.
  unfold execute_insert_media.
  destruct (bind_parameters (media_params a)) as [bs|e] eqn:E; [|congruence].
  apply bind_from_bound in E; subst bs; simpl.
  intros H; injection H as <-; reflexivity.
Qed.

Lemma execute_insert_media_raise (params : list value) (db db' : database) (e : exn) :
  execute_insert_media params db = (db', Raise e) -> db' = db.
Proof.
  unfold execute_insert_media.
  destruct (bind_parameters params) as [bs|e0]; [|congruence].
  do 7 (destruct bs as [|? bs]; [congruence|]).
  destruct bs; congruence.
Qed.

Lemma execute_insert_media_intro (a : dict) (db : database) (s : sqlval) :
  bind_param 0 (get a "id") = Ok s ->
  forallb bindable (tl (media_params a)) = true ->
  execute_insert_media (media_params a) db
  = (Database (artifact_metadata db) (artifact_media db ++ [media_row_of a])
              (artifact_colors db), Ok tt).
Proof.
  intros Hid Hrest; unfold execute_insert_media.
  change (media_params a) with (get a "id" :: tl (media_params a)).
  rewrite (bind_from_head _ _ _ Hid Hrest); reflexivity.
Qed.

Lemma execute_insert_colors_ok (a c : dict) (params : list value) (db db' : database) :
  colors_params a (VDict c) = Ok params ->
  execute_insert_colors params db = (db', Ok tt) ->
  db' = Database (artifact_metadata db) (artifact_media db)
                 (artifact_colors db ++ [colors_row_of a c]).
Proof.
  simpl; intros H; injection H as <-.
  unfold execute_insert_colors.
  match goal with
  | |- context [bind_parameters ?ps] =>
      destruct (bind_parameters ps) as [bs|e] eqn:E; [|congruence]
  end.
  apply bind_from_bound in E; subst bs; simpl.
  intros H; injection H as <-; reflexivity.
Qed.

Lemma execute_insert_colors_raise (params : list value) (db db' : database) (e : exn) :
  execute_insert_colors params db = (db', Raise e) -> db' = db.
Proof.
  unfold execute_insert_colors.
  destruct (bind_parameters params) as [bs|e0]; [|congruence].
  do 6 (destruct bs as [|? bs]; [congruence|]).
  destruct bs; congruence.
Qed.

Lemma execute_insert_colors_intro (a c : dict) (db : database) (s : sqlval) :
  bind_param 0 (get a "id") = Ok s ->
  valid_color (VDict c) = true ->
  exists params,
    colors_params a (VDict c) = Ok params
    /\ execute_insert_colors params db
       = (Database (artifact_metadata db) (artifact_media db)
                   (artifact_colors db ++ [colors_row_of a c]), Ok tt).
Proof.
  intros Hid Hc; eexists; split; [reflexivity|].
  unfold execute_insert_colors.
  rewrite (bind_from_head _ _ _ Hid Hc); reflexivity.
Qed.

(** ** One record *)

Lemma insert_colors_shape (a : dict) (colors : list value) :
  forall db db' r,
    insert_colors a colors db = (db', r) ->
    exists cs,
      db' = Database (artifact_metadata db) (artifact_media db)
                     (artifact_colors db ++ map (colors_row_of a) cs).
Proof.
  induction colors as [|color colors IH]; simpl; intros db db' r H.
  - injection H as <- _; exists []; simpl; rewrite app_nil_r.
    destruct db; reflexivity.
  - unfold and_then, lift in H.
    destruct (colors_params a color) as [params|e] eqn:Hp.
    + destruct color; try discriminate.
      destruct (execute_insert_colors params db) as [db1 [[]|e]] eqn:He.
      * apply (execute_insert_colors_ok _ _ _ _ _ Hp) in He; subst db1.
        apply IH in H as [cs ->]; simpl.
        exists (d :: cs); simpl; rewrite <- app_assoc; reflexivity.
      * apply execute_insert_colors_raise in He; subst db1.
        injection H as <- _; exists []; simpl; rewrite app_nil_r.
        destruct db; reflexivity.
    + injection H as <- _; exists []; simpl; rewrite app_nil_r.
      destruct db; reflexivity.
Qed.

(** What a record can leave behind, whether its [try] block ends or
    raises: nothing, or its metadata row, at most one media row and some of
    its colour rows. *)
Lemma insert_one_shape (a : dict) (db db' : database) (r : result unit) :
  insert_one a db = (db', r) ->
  (db' = db /\ r <> Ok tt
   /\ exists e, execute_insert_metadata (metadata_params a) db = (db, Raise e))
  \/ exists z cs,
       bind_param 0 (get a "id") = Ok (bound (get a "id"))
       /\ forallb bindable (tl (metadata_params a)) = true
       /\ rowid_for (artifact_metadata db) (bound (get a "id")) = Ok z
       /\ artifact_metadata db'
          = replace_metadata (metadata_row_of z a) (artifact_metadata db)
       /\ (artifact_media db' = artifact_media db /\ cs = [] /\ r <> Ok tt
           \/ artifact_media db' = artifact_media db ++ [media_row_of a])
       /\ artifact_colors db' = artifact_colors db ++ map (colors_row_of a) cs
       /\ (cs <> [] -> truthy (get a "colors") = true).
Proof.
  unfold insert_one, and_then; intros H.
  destruct (execute_insert_metadata (metadata_params a) db) as [db1 [[]|e]] eqn:E1.
  2:{ pose proof (execute_insert_metadata_raise _ _ _ _ E1); subst db1.
      injection H as <- <-; left; split; [reflexivity|].
      split; [discriminate|exists e; reflexivity]. }
  apply execute_insert_metadata_ok in E1 as (z & Hid & Hrest & Hz & ->).
  right; exists z.
  assert (Hnone : forall db2 : database,
             artifact_colors db2 = artifact_colors db ->
             artifact_colors db2 = artifact_colors db ++ map (colors_row_of a) []
             /\ (@nil dict <> [] -> truthy (get a "colors") = true)).
  { intros db2 ->; simpl; rewrite app_nil_r; split; congruence. }
  destruct (execute_insert_media (media_params a) _) as [db2 [[]|e]] eqn:E2.
  2:{ apply execute_insert_media_raise in E2; subst db2.
      injection H as <- <-; exists [].
      do 4 (split; [first [assumption|reflexivity]|]).
      split; [|apply Hnone; reflexivity].
      left; repeat split; discriminate. }
  apply execute_insert_media_ok in E2; subst db2; simpl in H.
  destruct (truthy (get a "colors")) eqn:Ht.
  - unfold lift in H; rewrite (truthy_subscript _ _ Ht) in H.
    destruct (iterate (get a "colors")) as [colors|].
    + apply insert_colors_shape in H as [cs ->]; simpl.
      exists cs.
      do 4 (split; [first [assumption|reflexivity]|]).
      split; [right; reflexivity|]. split; [reflexivity|trivial].
    + injection H as <- _; exists [].
      do 4 (split; [first [assumption|reflexivity]|]).
      split; [right; reflexivity|apply Hnone; reflexivity].
  - injection H as <- _; exists [].
    do 4 (split; [first [assumption|reflexivity]|]).
    split; [right; reflexivity|apply Hnone; reflexivity].
Qed.

(** ** The batch loop *)

Lemma insert_loop_invariant (P : database -> Prop) (batch : list dict) :
  (forall a db db' r,
      In a batch -> P db -> insert_one a db = (db', r) -> P db') ->
  forall db count errors rep,
    P db ->
    insert_loop batch db count errors = Ok rep ->
    P (committed rep).
Proof.
  induction batch as [|a batch IH]; simpl; intros Hstep db count errors rep HP H.
  - injection H as <-; exact HP.
  - destruct (insert_one a db) as [db' r] eqn:E.
    assert (HP' : P db') by (eapply Hstep; eauto).
    assert (Hstep' : forall a db db' r,
               In a batch -> P db -> insert_one a db = (db', r) -> P db')
      by (intros; eapply Hstep; eauto).
    destruct r as [[]|[e| | | | | |]]; try discriminate; eapply IH; eauto.
Qed.

(** ** The metadata table under [OR REPLACE] *)

Lemma in_replace_metadata (row m : metadata_row) (t : list metadata_row) :
  In m (replace_metadata row t) <-> (In m t /\ id m <> id row) \/ m = row.
Proof.
  unfold replace_metadata; rewrite in_app_iff, filter_In; simpl.
  rewrite negb_true_iff, Z.eqb_neq; intuition congruence.
Qed.

Lemma replace_metadata_keeps_ids (row : metadata_row) (t : list metadata_row) (z : Z) :
  In z (map id t) -> In z (map id (replace_metadata row t)).
Proof.
  rewrite !in_map_iff; intros (m & <- & Hm).
  destruct (Z.eq_dec (id m) (id row)) as [E|E].
  - exists row; split; [congruence|]. apply in_replace_metadata; right; reflexivity.
  - exists m; split; [reflexivity|]. apply in_replace_metadata; left; split; assumption.
Qed.

Lemma replace_metadata_has_row (row : metadata_row) (t : list metadata_row) :
  In (id row) (map id (replace_metadata row t)).
Proof.
  apply in_map, in_replace_metadata; right; reflexivity.
Qed.

Lemma references_in (v : sqlval) (t : list metadata_row) :
  existsb (fun m => references v (id m)) t = true
  <-> exists z, v = SInt z /\ In z (map id t).
Proof.
  rewrite existsb_exists; split.
  - intros (m & Hm & Hr). destruct v; simpl in Hr; try discriminate.
    apply Z.eqb_eq in Hr; subst. exists (id m); split; [reflexivity|].
    apply in_map; exact Hm.
  - intros (z & -> & Hz). apply in_map_iff in Hz as (m & <- & Hm).
    exists m; split; [exact Hm|]. simpl; apply Z.eqb_refl.
Qed.

Lemma integer_id_rowid (a : dict) (t : list metadata_row) (z : Z) :
  integer_id a = true ->
  rowid_for t (bound (get a "id")) = Ok z ->
  bound (get a "id") = SInt z.
Proof.
  unfold integer_id, bound.
  destruct (get a "id"); simpl; try discriminate.
  - intros _ H; injection H as <-; reflexivity.
  - intros ->; simpl; intros H; injection H as <-; reflexivity.
Qed.

(** A record that has an integer [id] whenever it has colours keeps every
    colour row attached to a metadata row. *)
Lemma insert_one_references (a : dict) (db db' : database) (r : result unit) :
  colours_have_id a = true ->
  referentially_complete db = true ->
  insert_one a db = (db', r) ->
  referentially_complete db' = true.
Proof.
  intros Hid Hdb H.
  apply insert_one_shape in H as [[-> _]|(z & cs & _ & _ & Hz & Hm & _ & Hc & Hcs)];
    [exact Hdb|].
  unfold referentially_complete in *.
  rewrite Hc, Hm, forallb_app; apply andb_true_intro; split.
  - rewrite forallb_forall in *; intros c Hin.
    specialize (Hdb c Hin); rewrite references_in in *.
    destruct Hdb as (z' & E & Hz'); exists z'; split; [exact E|].
    apply replace_metadata_keeps_ids, Hz'.
  - rewrite forallb_forall; intros c Hin.
    apply in_map_iff in Hin as (c0 & <- & Hin).
    assert (Hne : cs <> []) by (intros ->; exact Hin).
    apply references_in; exists z; split.
    + simpl; eapply integer_id_rowid; [|exact Hz].
      unfold colours_have_id in Hid; rewrite (Hcs Hne) in Hid; exact Hid.
    + apply (replace_metadata_has_row (metadata_row_of z a)).
Qed.

(** ** Re-insertion *)

(** C1: running [insert_artifacts] twice on the same batch leaves one
    metadata row per object id, but it does not leave [artifact_colors]
    with the row count of a single insertion: no statement clears an
    object's colour rows, and the second run appends them again. Here the
    batch is one record with one colour: one metadata row, one colour row
    after the first run and two after the second. *)
Theorem insert_twice_duplicates_colors :
  exists once twice,
    insert_artifacts create_tables [Sample.vase] = Ok once
    /\ insert_artifacts (committed once) [Sample.vase] = Ok twice
    /\ List.length (artifact_metadata (committed twice)) = 1%nat
    /\ List.length (artifact_colors (committed once)) = 1%nat
    /\ List.length (artifact_colors (committed twice)) = 2%nat.
Proof.
  do 2 eexists.
  split; [vm_compute; reflexivity|].
  split; [vm_compute; reflexivity|].
  repeat split.
Qed.

(** C2: re-inserting a record whose id is present does not replace the
    object's media row: [artifact_media] declares no key, so
    [INSERT OR REPLACE] finds no row to replace and appends. After the
    object is inserted with 3 images and again with 4, it has two media
    rows, the stale one first. *)
Theorem reinsert_adds_media_row :
  exists once twice,
    insert_artifacts create_tables [Sample.vase] = Ok once
    /\ insert_artifacts (committed once) [Sample.vase'] = Ok twice
    /\ map imagecount (media_of 1 (committed twice)) = [SInt 3; SInt 4].
Proof.
  do 2 eexists.
  split; [vm_compute; reflexivity|].
  split; [vm_compute; reflexivity|].
  reflexivity.
Qed.

(** ** Referential completeness *)

(** C3, as stated, fails: a record without [id] gets a metadata row under a
    new rowid, but its colour rows are stored with a NULL [objectid], which
    names no metadata row. *)
Lemma orphan_colors_without_id :
  exists rep,
    referentially_complete create_tables = true
    /\ insert_artifacts create_tables [Sample.nameless] = Ok rep
    /\ map id (artifact_metadata (committed rep)) = [1]
    /\ map colors_objectid (artifact_colors (committed rep)) = [SNull]
    /\ referentially_complete (committed rep) = false.
Proof.
  eexists; split; [reflexivity|].
  split; [vm_compute; reflexivity|].
  repeat split.
Qed.

(** C3, amended: starting from a state in which every colour row names a
    metadata row, a call of [insert_artifacts] on a batch in which every
    record that has colours has an integer [id] returns in such a state. *)
Theorem insert_keeps_references (db : database) (batch : list dict) (rep : insert_report) :
  referentially_complete db = true ->
  forallb colours_have_id batch = true ->
  insert_artifacts db batch = Ok rep ->
  referentially_complete (committed rep) = true.
Proof.
  intros Hdb Hbatch H; unfold insert_artifacts in H.
  rewrite forallb_forall in Hbatch.
  eapply (insert_loop_invariant (fun db => referentially_complete db = true));
    [|exact Hdb|exact H].
  intros a db1 db2 r Hin Hdb1 Hone.
  eapply insert_one_references; eauto.
Qed.

Lemma insert_keeps_references_witness :
  referentially_complete
    (committed (Sample.after create_tables [Sample.vase; Sample.bare 2; Sample.vase']))
  = true.
Proof.
  apply (insert_keeps_references create_tables
           [Sample.vase; Sample.bare 2; Sample.vase']);
    [reflexivity | reflexivity | vm_compute; reflexivity].
Defined.

(** ** Defaults *)

Lemma insert_single_ok (db : database) (a : dict) (rep : insert_report) :
  insert_artifacts db [a] = Ok rep ->
  inserted_count rep = 1 ->
  insert_one a db = (committed rep, Ok tt).
Proof.
  unfold insert_artifacts; simpl.
  destruct (insert_one a db) as [db' [[]|[e| | | | | |]]]; try discriminate;
    intros H; injection H as <-; simpl; [reflexivity|discriminate].
Qed.

Lemma absent_key_bound_null (a : dict) (key : string) :
  has_key a key = false -> bound (get a key) = SNull.
Proof.
  intros H; unfold get; rewrite (has_key_false_dict_get _ _ _ H); reflexivity.
Qed.

Lemma absent_key_bound_zero (a : dict) (key : string) :
  has_key a key = false -> bound (dict_get a key (VInt 0)) = SInt 0.
Proof.
  intros H; rewrite (has_key_false_dict_get _ _ _ H); reflexivity.
Qed.

(** C9, as stated, fails: a record with nothing but its [id] is stored with
    NULL in every text column; no marker value is written. *)
Lemma absent_text_left_null :
  exists rep,
    insert_artifacts create_tables [Sample.bare 1] = Ok rep
    /\ artifact_metadata (committed rep)
       = [MetadataRow 1 SNull SNull SNull SNull SNull SNull SNull SNull SNull
                      SNull SNull].
Proof.
  eexists; split; [vm_compute; reflexivity|reflexivity].
Qed.

(** C9, amended: for every raw record that is inserted, a text field the
    record does not have (title, culture, period, century, medium,
    dimensions, description, department, classification, accession method)
    is stored as NULL in the record's metadata row; the row is written, the
    column is not skipped. *)
Theorem absent_text_is_stored_null (db : database) (a : dict) (rep : insert_report)
    (key : string) (column : metadata_row -> sqlval) :
  In (key, column) text_columns ->
  has_key a key = false ->
  insert_artifacts db [a] = Ok rep ->
  inserted_count rep = 1 ->
  exists z,
    artifact_metadata (committed rep)
    = replace_metadata (metadata_row_of z a) (artifact_metadata db)
    /\ column (metadata_row_of z a) = SNull.
Proof.
  intros Hcol Hkey Hrep Hcount.
  pose proof (insert_single_ok _ _ _ Hrep Hcount) as Hone.
  apply insert_one_shape in Hone as [(_ & Hr & _)|(z & cs & _ & _ & _ & Hm & _)];
    [congruence|].
  exists z; split; [exact Hm|].
  simpl in Hcol.
  repeat (destruct Hcol as [Hcol|Hcol];
          [injection Hcol as <- <-; simpl; apply absent_key_bound_null, Hkey|]).
  contradiction.
Qed.

Lemma absent_text_is_stored_null_witness :
  exists z,
    artifact_metadata (committed (Sample.after create_tables [Sample.vase]))
    = replace_metadata (metadata_row_of z Sample.vase) (artifact_metadata create_tables)
    /\ period (metadata_row_of z Sample.vase) = SNull.
Proof.
  apply (absent_text_is_stored_null create_tables Sample.vase
           (Sample.after create_tables [Sample.vase]) "period" period).
  - simpl; tauto.
  - reflexivity.
  - vm_compute; reflexivity.
  - reflexivity.
Defined.

(** ** Last write wins *)

Lemma filter_filter_id (z z' : Z) (t : list metadata_row) :
  filter (fun m => id m =? z) (filter (fun m => negb (id m =? z')) t)
  = if z' =? z then [] else filter (fun m => id m =? z) t.
Proof.
  induction t as [|m t IH]; simpl.
  - destruct (z' =? z); reflexivity.
  - destruct (id m =? z') eqn:E'; simpl.
    + rewrite IH. destruct (z' =? z) eqn:E; [reflexivity|].
      apply Z.eqb_eq in E'; rewrite E', E; reflexivity.
    + rewrite IH. destruct (z' =? z) eqn:E; [|reflexivity].
      apply Z.eqb_eq in E; subst z'; rewrite E'; reflexivity.
Qed.

Lemma metadata_of_replace (z : Z) (row : metadata_row) (t : list metadata_row) :
  filter (fun m => id m =? z) (replace_metadata row t)
  = if id row =? z then [row] else filter (fun m => id m =? z) t.
Proof.
  unfold replace_metadata; rewrite filter_app, filter_filter_id; simpl.
  destruct (id row =? z); [reflexivity|apply app_nil_r].
Qed.

Lemma unique_ids_replace (row : metadata_row) (t : list metadata_row) :
  NoDup (map id t) -> NoDup (map id (replace_metadata row t)).
Proof.
  intros H; unfold replace_metadata; rewrite map_app; simpl.
  apply NoDup_app; [| repeat constructor; intros [] |].
  - induction t as [|m t IH]; simpl; [constructor|].
    inversion H as [|? ? Hnot Hrest]; subst.
    destruct (id m =? id row); simpl; [exact (IH Hrest)|].
    constructor; [|exact (IH Hrest)].
    rewrite in_map_iff; intros (m' & E & Hin); apply filter_In in Hin as [Hin _].
    apply Hnot; rewrite <- E; apply in_map, Hin.
  - intros z Hz [<-|[]].
    apply in_map_iff in Hz as (m & E & Hin); apply filter_In in Hin as [_ Hne].
    rewrite E, Z.eqb_refl in Hne; discriminate.
Qed.

Lemma largest_rowid_ge (t : list metadata_row) (m : metadata_row) :
  In m t -> id m <= largest_rowid t.
Proof.
  induction t as [|m' t IH]; simpl; [contradiction|].
  intros [->|H]; [lia|]. specialize (IH H); lia.
Qed.

Lemma NoDup_map_of_nat (l : list nat) : NoDup l -> NoDup (map Z.of_nat l).
Proof.
  induction 1 as [|x l Hx _ IH]; simpl; constructor; [|exact IH].
  rewrite in_map_iff; intros (y & E & Hy).
  apply Nat2Z.inj in E; subst y; contradiction.
Qed.

(** Among the first [length t + 1] positive integers one is not a rowid of
    [t], so [unused_rowid] is not in use. *)
Lemma unused_rowid_fresh (t : list metadata_row) (m : metadata_row) :
  In m t -> id m <> unused_rowid t.
Proof.
  intros Hm; unfold unused_rowid.
  destruct (filter (fun k => negb (rowid_in_use t k))
                   (map Z.of_nat (seq 1 (S (List.length t))))) as [|k ks] eqn:E.
  - exfalso.
    assert (Hincl : incl (map Z.of_nat (seq 1 (S (List.length t)))) (map id t)).
    { intros k Hk.
      destruct (rowid_in_use t k) eqn:Hu.
      - unfold rowid_in_use in Hu; apply existsb_exists in Hu as (m' & Hm' & Hid).
        apply Z.eqb_eq in Hid; subst k; apply in_map, Hm'.
      - assert (Hin : In k (filter (fun k => negb (rowid_in_use t k))
                                   (map Z.of_nat (seq 1 (S (List.length t))))))
          by (apply filter_In; split; [exact Hk|rewrite Hu; reflexivity]).
        rewrite E in Hin; contradiction. }
    apply NoDup_incl_length in Hincl.
    + rewrite !length_map, length_seq in Hincl; lia.
    + apply NoDup_map_of_nat, seq_NoDup.
  - simpl.
    assert (Hin : In k (k :: ks)) by (left; reflexivity).
    rewrite <- E in Hin; apply filter_In in Hin as [_ Hu].
    apply negb_true_iff in Hu; intros Hid.
    assert (Hex : rowid_in_use t k = true).
    { apply existsb_exists; exists m; split; [exact Hm|apply Z.eqb_eq, Hid]. }
    congruence.
Qed.

(** The rowid SQLite chooses is not in use. *)
Lemma new_rowid_fresh (t : list metadata_row) (z : Z) (m : metadata_row) :
  new_rowid t = Ok z -> In m t -> id m <> z.
Proof.
  intros H Hm; pose proof (largest_rowid_ge _ _ Hm) as Hle.
  unfold new_rowid in H; destruct t as [|m0 t]; [contradiction|].
  destruct (largest_rowid (m0 :: t) <? max_int64).
  - injection H as <-; simpl in Hle |- *; lia.
  - injection H as <-; apply unused_rowid_fresh, Hm.
Qed.

Lemma new_rowid_returns (t : list metadata_row) :
  exists z, new_rowid t = Ok z.
Proof.
  unfold new_rowid; destruct t as [|m t]; [eexists; reflexivity|].
  destruct (largest_rowid (m :: t) <? max_int64); eexists; reflexivity.
Qed.

(** A record that may not write rowid [z] is given another rowid, also when
    SQLite chooses it. *)
Lemma rowid_for_other (a : dict) (t : list metadata_row) (z z' : Z) :
  may_write a z = false ->
  bind_param 0 (get a "id") = Ok (bound (get a "id")) ->
  rowid_for t (bound (get a "id")) = Ok z' ->
  In z (map id t) ->
  z' <> z.
Proof.
  unfold may_write, bound; intros Hw Hb Hr Hin.
  destruct (get a "id") as [|b|i|f|s|l|d]; simpl in *; try discriminate.
  - apply in_map_iff in Hin as (m & <- & Hm).
    intros E; exact (new_rowid_fresh _ _ _ Hr Hm (eq_sym E)).
  - injection Hr as <-; apply Z.eqb_neq, Hw.
  - destruct (fits_int64 i); simpl in *; [|discriminate].
    injection Hr as <-; apply Z.eqb_neq, Hw.
Qed.

Lemma insert_loop_app (pre post : list dict) :
  forall db count errors rep,
    insert_loop (pre ++ post) db count errors = Ok rep ->
    exists mid,
      insert_loop pre db count errors = Ok mid
      /\ insert_loop post (committed mid) (inserted_count mid) (reported mid) = Ok rep.
Proof.
  induction pre as [|a pre IH]; simpl; intros db count errors rep H.
  - eexists; split; [reflexivity|exact H].
  - destruct (insert_one a db) as [db' [[]|[e| | | | | |]]]; try discriminate;
      apply IH, H.
Qed.

Lemma insert_one_unique_ids (a : dict) (db db' : database) (r : result unit) :
  unique_ids db -> insert_one a db = (db', r) -> unique_ids db'.
Proof.
  intros Hu H.
  apply insert_one_shape in H as [(-> & _)|(z & cs & _ & _ & _ & Hm & _)];
    [exact Hu|].
  unfold unique_ids; rewrite Hm; apply unique_ids_replace, Hu.
Qed.

(** A later record that may not write rowid [z] leaves the row alone. *)
Lemma insert_one_keeps_row (a : dict) (db db' : database) (r : result unit)
    (z : Z) (row : metadata_row) :
  may_write a z = false ->
  metadata_of z db = [row] ->
  insert_one a db = (db', r) ->
  metadata_of z db' = [row].
Proof.
  intros Hw Hrow H.
  apply insert_one_shape in H as [(-> & _)|(z' & cs & Hb & _ & Hz & Hm & _)];
    [exact Hrow|].
  unfold metadata_of in *; rewrite Hm, metadata_of_replace; simpl.
  assert (Hin : In z (map id (artifact_metadata db))).
  { assert (Hr : In row (filter (fun m => id m =? z) (artifact_metadata db)))
      by (rewrite Hrow; left; reflexivity).
    apply filter_In in Hr as [Hr E]; apply Z.eqb_eq in E; subst z.
    apply in_map, Hr. }
  pose proof (rowid_for_other _ _ _ _ Hw Hb Hz Hin) as Hne.
  apply Z.eqb_neq in Hne; rewrite Hne; exact Hrow.
Qed.

(** C7: after any sequence of insertions that starts from a table with
    unique ids, the ids are unique, and for every object id [z] the one
    metadata row with that id carries the values of the most recent record
    inserted under [z]: a record whose [id] is already in the table
    replaces the prior row. *)
Theorem metadata_last_write_wins (db : database) (pre post : list dict) (a : dict)
    (z : Z) (rep : insert_report) :
  unique_ids db ->
  get a "id" = VInt z ->
  forallb bindable (metadata_params a) = true ->
  forallb (fun a' => negb (may_write a' z)) post = true ->
  insert_artifacts db (pre ++ a :: post) = Ok rep ->
  unique_ids (committed rep)
  /\ metadata_of z (committed rep) = [metadata_row_of z a].
Proof.
  intros Hu Hid Hbind Hpost H; unfold insert_artifacts in H.
  apply insert_loop_app in H as (mid & Hpre & H).
  assert (Hmid : unique_ids (committed mid)).
  { eapply (insert_loop_invariant unique_ids); [|exact Hu|exact Hpre].
    intros; eapply insert_one_unique_ids; eauto. }
  simpl in H.
  destruct (insert_one a (committed mid)) as [db1 r] eqn:Hone.
  assert (H1 : unique_ids db1 /\ metadata_of z db1 = [metadata_row_of z a]).
  { split; [eapply insert_one_unique_ids; eauto|].
    assert (Hz : bind_param 0 (get a "id") = Ok (SInt z)).
    { unfold metadata_params in Hbind; simpl in Hbind.
      apply andb_prop in Hbind as [Hf _]; rewrite Hid in *; simpl in *.
      rewrite Hf; reflexivity. }
    assert (Hrest : forallb bindable (tl (metadata_params a)) = true)
      by (simpl in Hbind; apply andb_prop in Hbind as [_ Hrest]; exact Hrest).
    pose proof (execute_insert_metadata_intro a (committed mid) (SInt z) z
                  Hz Hrest eq_refl) as Hmeta.
    apply insert_one_shape in Hone
      as [(_ & _ & e & He)|(z' & cs & Hb & _ & Hz' & Hm & _)]; [congruence|].
    rewrite <- (bind_param_bound _ _ _ Hz) in Hz'; simpl in Hz'.
    injection Hz' as <-.
    unfold metadata_of; rewrite Hm, metadata_of_replace; simpl.
    rewrite Z.eqb_refl; reflexivity. }
  assert (Hrest : insert_loop post db1
                    (match r with Ok _ => inserted_count mid + 1 | Raise _ => inserted_count mid end)
                    (match r with
                     | Raise (SqliteError e) => reported mid ++ [e]
                     | _ => reported mid
                     end) = Ok rep).
  { destruct r as [[]|[e| | | | | |]]; try discriminate; exact H. }
  rewrite forallb_forall in Hpost.
  eapply (insert_loop_invariant
            (fun db => unique_ids db /\ metadata_of z db = [metadata_row_of z a]));
    [|exact H1|exact Hrest].
  intros a' db2 db3 r' Hin [Hu2 Hrow2] Hone'; split.
  - eapply insert_one_unique_ids; eauto.
  - eapply insert_one_keeps_row; eauto.
    apply negb_true_iff, Hpost, Hin.
Qed.

Lemma metadata_last_write_wins_witness :
  unique_ids
    (committed (Sample.after create_tables
                  [Sample.vase; Sample.vase'; Sample.nameless; Sample.bare 2]))
  /\ metadata_of 1
       (committed (Sample.after create_tables
                     [Sample.vase; Sample.vase'; Sample.nameless; Sample.bare 2]))
     = [metadata_row_of 1 Sample.vase'].
Proof.
  apply (metadata_last_write_wins create_tables [Sample.vase]
           [Sample.nameless; Sample.bare 2] Sample.vase' 1).
  - constructor.
  - reflexivity.
  - reflexivity.
  - reflexivity.
  - vm_compute; reflexivity.
Defined.

(** ** Records without an identifier *)

Lemma insert_colors_valid (a : dict) (s : sqlval) (colors : list value) :
  bind_param 0 (get a "id") = Ok s ->
  forallb valid_color colors = true ->
  forall db,
  exists db',
    insert_colors a colors db = (db', Ok tt)
    /\ artifact_metadata db' = artifact_metadata db
    /\ artifact_media db' = artifact_media db.
Proof.
  intros Hid; induction colors as [|color colors IH]; simpl; intros Hc db.
  - exists db; repeat split.
  - apply andb_prop in Hc as [Hc Hcs].
    destruct color as [| | | | | |c]; try discriminate.
    destruct (execute_insert_colors_intro a c db s Hid Hc) as (params & Hp & He).
    unfold and_then, lift; rewrite Hp, He.
    destruct (IH Hcs (Database (artifact_metadata db) (artifact_media db)
                               (artifact_colors db ++ [colors_row_of a c])))
      as (db' & H & Hm & Hd).
    exists db'; repeat split; assumption.
Qed.

Lemma insert_one_valid (a : dict) (db : database) (s : sqlval) (z : Z) :
  bind_param 0 (get a "id") = Ok s ->
  rowid_for (artifact_metadata db) s = Ok z ->
  valid_fields a = true ->
  exists db',
    insert_one a db = (db', Ok tt)
    /\ artifact_metadata db'
       = replace_metadata (metadata_row_of z a) (artifact_metadata db)
    /\ artifact_media db' = artifact_media db ++ [media_row_of a].
Proof.
  intros Hid Hz Hv; unfold valid_fields in Hv.
  apply andb_prop in Hv as [Hv Hcolors]; apply andb_prop in Hv as [Hmeta Hmedia].
  unfold insert_one, and_then.
  rewrite (execute_insert_metadata_intro a db s z Hid Hmeta Hz).
  rewrite (execute_insert_media_intro a _ s Hid Hmedia); simpl.
  destruct (truthy (get a "colors")) eqn:Ht.
  - unfold lift; rewrite (truthy_subscript _ _ Ht).
    destruct (get a "colors") as [| | | | |colors|] eqn:E;
      try (rewrite Ht in Hcolors; discriminate).
    simpl.
    destruct (insert_colors_valid a s colors Hid Hcolors
                (Database
                   (replace_metadata (metadata_row_of z a) (artifact_metadata db))
                   (artifact_media db ++ [media_row_of a]) (artifact_colors db)))
      as (db' & H & Hm & Hd).
    exists db'; repeat split; assumption.
  - eexists; repeat split.
Qed.

Lemma valid_record_rowid (a : dict) (t : list metadata_row) :
  valid_record a = true ->
  exists z,
    bind_param 0 (get a "id") = Ok (SInt z)
    /\ rowid_for t (SInt z) = Ok z
    /\ valid_fields a = true.
Proof.
  unfold valid_record; intros H; apply andb_prop in H as [Hid Hv].
  destruct (get a "id") as [|b|i| | | |]; try discriminate; simpl.
  - exists (if b then 1 else 0); repeat split; exact Hv.
  - rewrite Hid; exists i; repeat split; exact Hv.
Qed.

(** Valid records with identifiers are all inserted, one media row each. *)
Lemma insert_loop_valid (batch : list dict) :
  forallb valid_record batch = true ->
  forall db count errors,
  exists db',
    insert_loop batch db count errors
    = Ok (InsertReport db' (count + Z.of_nat (List.length batch)) errors)
    /\ List.length (artifact_media db')
       = (List.length (artifact_media db) + List.length batch)%nat.
Proof.
  induction batch as [|a batch IH]; simpl; intros Hb db count errors.
  - exists db; rewrite Z.add_0_r, Nat.add_0_r; repeat split; trivial.
  - apply andb_prop in Hb as [Ha Hb].
    destruct (valid_record_rowid a (artifact_metadata db) Ha)
      as (z & Hid & Hz & Hv).
    destruct (insert_one_valid a db (SInt z) z Hid Hz Hv) as (db1 & H1 & Hm & Hd).
    rewrite H1.
    destruct (IH Hb db1 (count + 1) errors) as (db' & H & Hlen).
    exists db'; split.
    + rewrite H; do 2 f_equal; lia.
    + rewrite Hlen, Hd, length_app; simpl; lia.
Qed.

Lemma insert_one_keeps_media_row (a : dict) (db db' : database) (r : result unit)
    (row : media_row) :
  In row (artifact_media db) ->
  insert_one a db = (db', r) ->
  In row (artifact_media db').
Proof.
  intros Hin H.
  apply insert_one_shape in H
    as [(-> & _)|(z & cs & _ & _ & _ & _ & [(Hm & _)|Hm] & _)];
    [exact Hin|rewrite Hm; exact Hin|].
  rewrite Hm; apply in_or_app; left; exact Hin.
Qed.

Lemma insert_loop_app_ok (pre post : list dict) :
  forall db count errors mid,
    insert_loop pre db count errors = Ok mid ->
    insert_loop (pre ++ post) db count errors
    = insert_loop post (committed mid) (inserted_count mid) (reported mid).
Proof.
  induction pre as [|a pre IH]; simpl; intros db count errors mid H.
  - injection H as <-; reflexivity.
  - destruct (insert_one a db) as [db' [[]|[e| | | | | |]]]; try discriminate;
      apply IH, H.
Qed.

(** C4, as stated, fails: of ten records, nine valid and one without
    identifier, none is skipped. The count returned is 10, nothing is
    reported, and the record without identifier has the metadata row with
    the rowid SQLite chose, 6. *)
Lemma idless_record_counts_as_inserted :
  exists rep,
    filter lacks_id Sample.ten = [Sample.nameless]
    /\ forallb valid_record (filter (fun a => negb (lacks_id a)) Sample.ten) = true
    /\ List.length Sample.ten = 10%nat
    /\ insert_artifacts create_tables Sample.ten = Ok rep
    /\ inserted_count rep = 10
    /\ reported rep = []
    /\ map id (artifact_metadata (committed rep)) = [1; 2; 3; 4; 5; 6; 7; 8; 9; 10]
    /\ metadata_of 6 (committed rep) = [metadata_row_of 6 Sample.nameless].
Proof.
  eexists.
  do 3 (split; [reflexivity|]).
  split; [vm_compute; reflexivity|].
  repeat split.
Qed.

(** C4, amended: for a batch of 10 records of which one has no identifier
    and nine are valid, with that record's fields valid too, the insertion
    counts 10 successful inserts and reports no failure. The record without
    identifier is not skipped: it writes its media row like the others, and
    its metadata row under a rowid that SQLite chooses and that is not in
    use when the record is reached. That row is in the table after the call
    unless a later record of the batch carries the same rowid as its id and
    replaces it. *)
Theorem idless_record_is_inserted (db : database) (pre post : list dict) (a : dict) :
  forallb valid_record (pre ++ post) = true ->
  lacks_id a = true ->
  valid_fields a = true ->
  List.length (pre ++ a :: post) = 10%nat ->
  exists mid z after rep,
    insert_artifacts db pre = Ok mid
    /\ new_rowid (artifact_metadata (committed mid)) = Ok z
    /\ ~ In z (map id (artifact_metadata (committed mid)))
    /\ insert_artifacts db (pre ++ [a]) = Ok after
    /\ metadata_of z (committed after) = [metadata_row_of z a]
    /\ insert_artifacts db (pre ++ a :: post) = Ok rep
    /\ inserted_count rep = 10
    /\ reported rep = []
    /\ List.length (artifact_media (committed rep))
       = (List.length (artifact_media db) + 10)%nat
    /\ In (media_row_of a) (artifact_media (committed rep))
    /\ (forallb (fun a' => negb (may_write a' z)) post = true ->
        metadata_of z (committed rep) = [metadata_row_of z a]).
Proof.
  intros Hvalid Hid Hfields Hlen.
  rewrite forallb_app in Hvalid; apply andb_prop in Hvalid as [Hpre Hpost].
  destruct (insert_loop_valid pre Hpre db 0 []) as (db1 & H1 & Hlen1).
  destruct (new_rowid_returns (artifact_metadata db1)) as [z Hz].
  assert (Hb : bind_param 0 (get a "id") = Ok SNull).
  { unfold lacks_id in Hid; destruct (get a "id"); try discriminate; reflexivity. }
  destruct (insert_one_valid a db1 SNull z Hb Hz Hfields) as (db2 & H2 & Hm2 & Hd2).
  destruct (insert_loop_valid post Hpost db2 (0 + Z.of_nat (List.length pre) + 1) [])
    as (db3 & H3 & Hlen3).
  assert (Hrow2 : metadata_of z db2 = [metadata_row_of z a]).
  { unfold metadata_of; rewrite Hm2, metadata_of_replace; simpl.
    rewrite Z.eqb_refl; reflexivity. }
  exists (InsertReport db1 (0 + Z.of_nat (List.length pre)) []), z.
  exists (InsertReport db2 (0 + Z.of_nat (List.length pre) + 1) []).
  exists (InsertReport db3
            (0 + Z.of_nat (List.length pre) + 1 + Z.of_nat (List.length post)) []).
  split; [exact H1|]. split; [exact Hz|].
  split.
  { intros Hin; apply in_map_iff in Hin as (m & E & Hm).
    exact (new_rowid_fresh _ _ _ Hz Hm E). }
  split.
  { unfold insert_artifacts.
    rewrite (insert_loop_app_ok pre [a] db 0 [] _ H1); simpl.
    rewrite H2; reflexivity. }
  split; [exact Hrow2|].
  split.
  { unfold insert_artifacts.
    rewrite (insert_loop_app_ok pre (a :: post) db 0 [] _ H1); simpl.
    rewrite H2; exact H3. }
  rewrite length_app in Hlen; simpl in Hlen; simpl.
  split; [lia|]. split; [reflexivity|].
  split; [rewrite Hlen3, Hd2, length_app, Hlen1; simpl; lia|].
  split.
  - apply (insert_loop_invariant
             (fun db' => In (media_row_of a) (artifact_media db')) post)
      with (db := db2) (count := 0 + Z.of_nat (List.length pre) + 1) (errors := [])
           (rep := InsertReport db3
                     (0 + Z.of_nat (List.length pre) + 1 + Z.of_nat (List.length post))
                     []);
      [|rewrite Hd2; apply in_or_app; right; left; reflexivity|exact H3].
    intros a' dbx dby r _ Hin Hone; eapply insert_one_keeps_media_row; eauto.
  - intros Hlater; rewrite forallb_forall in Hlater.
    apply (insert_loop_invariant
             (fun db' => metadata_of z db' = [metadata_row_of z a]) post)
      with (db := db2) (count := 0 + Z.of_nat (List.length pre) + 1) (errors := [])
           (rep := InsertReport db3
                     (0 + Z.of_nat (List.length pre) + 1 + Z.of_nat (List.length post))
                     []);
      [|exact Hrow2|exact H3].
    intros a' dbx dby r Hin Hrow Hone.
    eapply insert_one_keeps_row; [|exact Hrow|exact Hone].
    apply negb_true_iff, Hlater, Hin.
Qed.

Lemma idless_record_is_inserted_witness :
  exists mid z after rep,
    insert_artifacts create_tables (map Sample.bare [1; 2; 3; 4; 5]) = Ok mid
    /\ new_rowid (artifact_metadata (committed mid)) = Ok z
    /\ ~ In z (map id (artifact_metadata (committed mid)))
    /\ insert_artifacts create_tables
         (map Sample.bare [1; 2; 3; 4; 5] ++ [Sample.nameless]) = Ok after
    /\ metadata_of z (committed after) = [metadata_row_of z Sample.nameless]
    /\ insert_artifacts create_tables Sample.ten = Ok rep
    /\ inserted_count rep = 10
    /\ reported rep = []
    /\ List.length (artifact_media (committed rep))
       = (List.length (artifact_media create_tables) + 10)%nat
    /\ In (media_row_of Sample.nameless) (artifact_media (committed rep))
    /\ (forallb (fun a' => negb (may_write a' z)) (map Sample.bare [7; 8; 9; 10])
        = true ->
        metadata_of z (committed rep) = [metadata_row_of z Sample.nameless]).
Proof.
  apply (idless_record_is_inserted create_tables
           (map Sample.bare [1; 2; 3; 4; 5]) (map Sample.bare [7; 8; 9; 10])
           Sample.nameless);
    reflexivity.
Defined.

(** ** Counters that are absent *)

Lemma insert_colors_same_id (a1 a2 : dict) (colors : list value) :
  get a1 "id" = get a2 "id" ->
  forall db, insert_colors a1 colors db = insert_colors a2 colors db.
Proof.
  intros Hid; induction colors as [|color colors IH]; simpl; intros db;
    [reflexivity|].
  assert (Hp : colors_params a1 color = colors_params a2 color)
    by (destruct color; simpl; rewrite ?Hid; reflexivity).
  unfold and_then, lift; rewrite Hp.
  destruct (colors_params a2 color) as [params|e]; [|reflexivity].
  destruct (execute_insert_colors params db) as [db' [[]|e]]; [apply IH|reflexivity].
Qed.

(** A record without the three counters is inserted exactly like the same
    record with the counters given as 0. *)
Lemma insert_one_with_zero_counters (a : dict) :
  has_key a "imagecount" = false ->
  has_key a "mediacount" = false ->
  has_key a "colorcount" = false ->
  forall db, insert_one (with_zero_counters a) db = insert_one a db.
Proof.
  intros Hi Hm Hc db.
  assert (Hmedia : media_params (with_zero_counters a) = media_params a).
  { unfold media_params.
    rewrite (has_key_false_dict_get a "imagecount" (VInt 0) Hi),
      (has_key_false_dict_get a "mediacount" (VInt 0) Hm),
      (has_key_false_dict_get a "colorcount" (VInt 0) Hc).
    reflexivity. }
  unfold insert_one.
  change (metadata_params (with_zero_counters a)) with (metadata_params a).
  change (get (with_zero_counters a) "colors") with (get a "colors").
  change (subscript (with_zero_counters a) "colors") with (subscript a "colors").
  rewrite Hmedia; unfold and_then.
  destruct (execute_insert_metadata (metadata_params a) db) as [db1 [[]|e]];
    [|reflexivity].
  destruct (execute_insert_media (media_params a) db1) as [db2 [[]|e]];
    [|reflexivity].
  destruct (truthy (get a "colors")); [|reflexivity].
  unfold lift; destruct (subscript a "colors") as [v|e]; [|reflexivity].
  destruct (iterate v) as [colors|]; [|reflexivity].
  apply insert_colors_same_id; reflexivity.
Qed.

(** C10: for every raw record without the keys [imagecount], [mediacount]
    and [colorcount], the media row that [insert_artifacts] stores for it
    has 0 in those three columns, and likewise 0 for each of [rank],
    [datebegin] and [dateend] that is absent. The insertion does not fail
    on the missing fields: the call gives exactly the result it gives for
    the same record with the three counters given as 0; whenever the record
    is counted as inserted its media row is the row added to
    [artifact_media]; and a valid record is inserted, with nothing
    reported. *)
Theorem absent_counters_default_to_zero (db : database) (a : dict) :
  has_key a "imagecount" = false ->
  has_key a "mediacount" = false ->
  has_key a "colorcount" = false ->
  (imagecount (media_row_of a) = SInt 0
   /\ mediacount (media_row_of a) = SInt 0
   /\ colorcount (media_row_of a) = SInt 0
   /\ (has_key a "rank" = false -> rank (media_row_of a) = SInt 0)
   /\ (has_key a "datebegin" = false -> datebegin (media_row_of a) = SInt 0)
   /\ (has_key a "dateend" = false -> dateend (media_row_of a) = SInt 0))
  /\ insert_artifacts db [a] = insert_artifacts db [with_zero_counters a]
  /\ (forall rep,
         insert_artifacts db [a] = Ok rep ->
         inserted_count rep = 1 ->
         artifact_media (committed rep) = artifact_media db ++ [media_row_of a])
  /\ (valid_record a = true ->
      exists rep,
        insert_artifacts db [a] = Ok rep
        /\ inserted_count rep = 1
        /\ reported rep = []
        /\ artifact_media (committed rep) = artifact_media db ++ [media_row_of a]).
Proof.
  intros Hi Hm Hc.
  split; [|split; [|split]].
  - simpl; repeat split; intros; apply absent_key_bound_zero; assumption.
  - unfold insert_artifacts; simpl.
    rewrite (insert_one_with_zero_counters a Hi Hm Hc db); reflexivity.
  - intros rep Hrep Hcount.
    pose proof (insert_single_ok _ _ _ Hrep Hcount) as Hone.
    apply insert_one_shape in Hone
      as [(_ & Hr & _)|(z & cs & _ & _ & _ & _ & [(_ & _ & Hr)|Hmedia] & _)];
      first [exact Hmedia|congruence].
  - intros Hv.
    destruct (valid_record_rowid a (artifact_metadata db) Hv) as (z & Hid & Hz & Hf).
    destruct (insert_one_valid a db (SInt z) z Hid Hz Hf) as (db' & Hone & _ & Hmedia).
    unfold insert_artifacts; simpl; rewrite Hone.
    eexists; split; [reflexivity|]; simpl; repeat split; exact Hmedia.
Qed.

Lemma absent_counters_default_to_zero_witness :
  (exists rep,
      insert_artifacts create_tables [Sample.bare 1] = Ok rep
      /\ inserted_count rep = 1
      /\ reported rep = []
      /\ artifact_media (committed rep)
         = artifact_media create_tables ++ [media_row_of (Sample.bare 1)])
  /\ media_row_of (Sample.bare 1)
     = MediaRow (SInt 1) (SInt 0) (SInt 0) (SInt 0) (SInt 0) (SInt 0) (SInt 0).
Proof.
  destruct (absent_counters_default_to_zero create_tables (Sample.bare 1)
              eq_refl eq_refl eq_refl) as (_ & _ & _ & Hvalid).
  split; [apply Hvalid; reflexivity|reflexivity].
Defined.

(** ** The fetch loop *)

Lemma truthy_iterate_grows (v : value) (items : list value) :
  truthy v = true -> iterate v = Some items -> items <> [].
Proof.
  destruct v as [| | | |s|l|d]; simpl; try discriminate.
  - destruct s; simpl; [discriminate|]. intros _ H; injection H as <-; discriminate.
  - destruct l; [discriminate|]. intros _ H; injection H as <-; discriminate.
  - destruct d; [discriminate|]. intros _ H; injection H as <-; discriminate.
Qed.

(** A pass that goes on has added at least one record. *)
Lemma request_page_grows (c : catalog) (all all' : list value) (page : Z) :
  request_page c all page = Ok (NextPage all') ->
  (List.length all < List.length all')%nat.
Proof.
  unfold request_page.
  destruct (c page) as [|status_code body]; [discriminate|].
  destruct (status_code =? 200); [|discriminate].
  destruct (json body) as [data|e]; simpl; [|discriminate].
  destruct (value_get data "records") as [records|e] eqn:Hget; simpl; [|discriminate].
  destruct (truthy records) eqn:Ht; simpl; [|discriminate].
  destruct data as [| | | | | |d]; try discriminate; simpl in *.
  injection Hget as <-.
  rewrite (truthy_subscript _ _ Ht); simpl; unfold extend.
  destruct (iterate (get d "records")) as [items|] eqn:Hi; simpl; [|discriminate].
  intros H; injection H as <-.
  pose proof (truthy_iterate_grows _ _ Ht Hi) as Hne.
  rewrite length_app; destruct items; [congruence|simpl; lia].
Qed.

Lemma request_page_serves (c : catalog) (all records : list value) (page : Z) :
  serves c page records ->
  request_page c all page = Ok (NextPage (all ++ records)).
Proof.
  intros (d & Hc & Hr & Hne); unfold request_page; rewrite Hc; simpl.
  rewrite Hr; simpl.
  destruct records as [|r records]; [congruence|]; simpl.
  assert (Ht : truthy (get d "records") = true) by (rewrite Hr; reflexivity).
  rewrite (truthy_subscript _ _ Ht), Hr; reflexivity.
Qed.

Lemma slice_to_all (l : list value) (limit : Z) :
  Z.of_nat (List.length l) <= limit -> slice_to l limit = l.
Proof.
  intros H; unfold slice_to.
  destruct (limit <? 0) eqn:E; [apply Z.ltb_lt in E; lia|].
  apply firstn_all2; lia.
Qed.

(** With fuel for every record still missing, the loop returns. *)
Lemma fetch_loop_returns (c : catalog) (limit : Z) (fuel : nat) :
  forall all page calls,
    limit - Z.of_nat (List.length all) < Z.of_nat fuel ->
    exists rep, fetch_loop fuel c limit all page calls = Some rep.
Proof.
  induction fuel as [|fuel IH]; intros all page calls Hfuel; simpl.
  - destruct (Z.of_nat (List.length all) <? limit) eqn:E;
      [apply Z.ltb_lt in E; lia|eexists; reflexivity].
  - destruct (Z.of_nat (List.length all) <? limit); [|eexists; reflexivity].
    destruct (request_page c all page) as [[all'| |status_code]|e] eqn:Hp;
      try (eexists; reflexivity).
    apply IH. apply request_page_grows in Hp; lia.
Qed.

(** [fetch_artifacts] returns a list on every catalog and for every limit:
    the fuel it starts with is never used up, and every exception of the
    body ends in the [except] clause. *)
Lemma fetch_artifacts_returns (c : catalog) (limit : Z) :
  exists rep, fetch_artifacts c limit = Some rep.
Proof.
  apply fetch_loop_returns; simpl List.length; lia.
Qed.

(** A state the run reaches is a state the loop of [fetch_artifacts]
    continues from, with fuel to spare. *)
Lemma reaches_fetch_loop (c : catalog) (limit : Z) (all : list value) (page calls : Z) :
  reaches c limit all page calls ->
  exists fuel,
    fetch_artifacts c limit = fetch_loop fuel c limit all page calls
    /\ limit - Z.of_nat (List.length all) < Z.of_nat fuel.
Proof.
  induction 1 as [|all page calls all' _ (fuel & Heq & Hfuel) Hlt Hp].
  - exists (S (Z.to_nat limit)); split; [reflexivity|simpl List.length; lia].
  - destruct fuel as [|fuel]; [lia|].
    exists fuel; split.
    + rewrite Heq; simpl.
      apply Z.ltb_lt in Hlt; rewrite Hlt, Hp; reflexivity.
    + apply request_page_grows in Hp; lia.
Qed.

Lemma reaches_served (c : catalog) (limit : Z) (pages : list (list value)) :
  forall all page calls,
    reaches c limit all page calls ->
    served_from c page pages ->
    Z.of_nat (List.length (all ++ List.concat pages)) < limit ->
    reaches c limit (all ++ List.concat pages)
            (page + Z.of_nat (List.length pages))
            (calls + Z.of_nat (List.length pages)).
Proof.
  induction pages as [|records pages IH]; simpl; intros all page calls Hr Hs Hlt.
  - rewrite app_nil_r, !Z.add_0_r; exact Hr.
  - destruct Hs as [Hs Hss].
    rewrite app_assoc in *.
    replace (page + Z.pos (Pos.of_succ_nat (List.length pages)))
      with (page + 1 + Z.of_nat (List.length pages)) by lia.
    replace (calls + Z.pos (Pos.of_succ_nat (List.length pages)))
      with (calls + 1 + Z.of_nat (List.length pages)) by lia.
    apply IH; [|exact Hss|exact Hlt].
    apply reaches_next with (all_artifacts := all); [exact Hr| |].
    + rewrite !length_app in Hlt; lia.
    + apply request_page_serves, Hs.
Qed.

Lemma fetch_loop_requests (c : catalog) (limit : Z) (fuel : nat) :
  forall all page calls rep,
    fetch_loop fuel c limit all page calls = Some rep ->
    calls <= requests rep
    /\ (Z.of_nat (List.length all) < limit -> calls + 1 <= requests rep).
Proof.
  induction fuel as [|fuel IH]; intros all page calls rep; simpl.
  - destruct (Z.of_nat (List.length all) <? limit) eqn:E; [discriminate|].
    apply Z.ltb_ge in E. intros H; injection H as <-; simpl; lia.
  - destruct (Z.of_nat (List.length all) <? limit) eqn:E.
    + destruct (request_page c all page) as [[all'| |status_code]|e];
        try (intros H; injection H as <-; simpl; lia).
      intros H; apply IH in H as [H _]; lia.
    + apply Z.ltb_ge in E. intros H; injection H as <-; simpl; lia.
Qed.

Lemma request_page_exhausted (c : catalog) (all : list value) (page : Z) :
  exhausted c page -> request_page c all page = Ok NoRecords.
Proof.
  intros (d & Hc & Ht); unfold request_page; rewrite Hc; simpl.
  rewrite Ht; reflexivity.
Qed.

Lemma request_page_fails (c : catalog) (all : list value) (page : Z) :
  fails (c page) ->
  (exists status_code, request_page c all page = Ok (ApiError status_code))
  \/ request_page c all page = Raise JSONDecodeError.
Proof.
  unfold fails, request_page.
  destruct (c page) as [|status_code body]; [contradiction|].
  destruct (status_code =? 200) eqn:E.
  - apply Z.eqb_eq in E. intros [H| ->]; [contradiction|]. right; reflexivity.
  - intros _; left; eexists; reflexivity.
Qed.

(** C5, as stated, fails: the catalog serves two full pages and a third
    page of 50 records; with the target of 2500 not reached,
    [fetch_artifacts] asks for a fourth page and only stops there, because
    that page has no records. *)
Lemma short_third_page_is_followed :
  exists rep,
    Sample.short_third 3 = Sample.page_of 50
    /\ fetch_artifacts Sample.short_third 2500 = Some rep
    /\ List.length (artifacts rep) = 250%nat
    /\ requests rep = 4.
Proof.
  eexists; split; [reflexivity|].
  split; [vm_compute; reflexivity|].
  split; reflexivity.
Qed.

(** C5, amended: the loop does not look at the length of a page. If the
    catalog returns a non-empty third page, however short, and the target
    is not reached, [fetch_artifacts] makes a fourth page request; when
    that page has no records it stops after exactly 4 requests and returns
    the records of the three pages, even if they are fewer than the
    target. *)
Theorem short_page_does_not_stop (c : catalog) (limit : Z) (p1 p2 p3 : list value) :
  serves c 1 p1 ->
  serves c 2 p2 ->
  serves c 3 p3 ->
  Z.of_nat (List.length (p1 ++ p2 ++ p3)) < limit ->
  exists rep,
    fetch_artifacts c limit = Some rep
    /\ 4 <= requests rep
    /\ (exhausted c 4 -> rep = FetchReport (p1 ++ p2 ++ p3) 4 []).
Proof.
  intros H1 H2 H3 Hlt.
  assert (Hr : reaches c limit (p1 ++ p2 ++ p3) 4 3).
  { pose proof (reaches_served c limit [p1; p2; p3] [] 1 0 (reaches_start c limit))
      as Hr.
    simpl in Hr; rewrite app_nil_r in Hr; apply Hr; [tauto|exact Hlt]. }
  destruct (reaches_fetch_loop _ _ _ _ _ Hr) as (fuel & Heq & Hfuel).
  destruct (fetch_loop_returns c limit fuel _ 4 3 Hfuel) as [rep Hrep].
  exists rep; rewrite Heq; split; [exact Hrep|].
  split; [apply (fetch_loop_requests _ _ _ _ _ _ _ Hrep), Hlt|].
  intros Hex.
  destruct fuel as [|fuel]; [lia|]; simpl in Hrep.
  apply Z.ltb_lt in Hlt; rewrite Hlt in Hrep.
  rewrite (request_page_exhausted _ _ _ Hex) in Hrep.
  apply Z.ltb_lt in Hlt.
  rewrite slice_to_all in Hrep by lia.
  injection Hrep as <-; reflexivity.
Qed.

Lemma short_page_does_not_stop_witness :
  exists rep,
    fetch_artifacts Sample.short_third 2500 = Some rep
    /\ 4 <= requests rep
    /\ (exhausted Sample.short_third 4 ->
        rep = FetchReport (repeat (VDict Sample.vase) 100
                           ++ repeat (VDict Sample.vase) 100
                           ++ repeat (VDict Sample.vase) 50) 4 []).
Proof.
  apply (short_page_does_not_stop Sample.short_third 2500).
  - eexists; repeat split; discriminate.
  - eexists; repeat split; discriminate.
  - eexists; repeat split; discriminate.
  - vm_compute; reflexivity.
Defined.

(** C6: in every run in which a page request comes back with a status other
    than 200 or with a body that is not JSON, [fetch_artifacts] asks for no
    further page and returns the records accumulated from the earlier
    pages, with one message shown; it returns, no exception leaves it. *)
Theorem fetch_failure_returns_partial (c : catalog) (limit : Z)
    (all : list value) (page calls : Z) :
  reaches c limit all page calls ->
  Z.of_nat (List.length all) < limit ->
  fails (c page) ->
  exists message,
    fetch_artifacts c limit = Some (FetchReport all (calls + 1) [message]).
Proof.
  intros Hr Hlt Hf.
  destruct (reaches_fetch_loop _ _ _ _ _ Hr) as (fuel & -> & Hfuel).
  destruct fuel as [|fuel]; [lia|]; simpl.
  rewrite slice_to_all by lia.
  apply Z.ltb_lt in Hlt; rewrite Hlt.
  destruct (request_page_fails c all page Hf) as [[status_code ->]| ->];
    eexists; reflexivity.
Qed.

Lemma fetch_failure_returns_partial_witness :
  exists message,
    fetch_artifacts Sample.failing_second 2500
    = Some (FetchReport (repeat (VDict Sample.vase) 100) 2 [message]).
Proof.
  apply (fetch_failure_returns_partial Sample.failing_second 2500
           (repeat (VDict Sample.vase) 100) 2 1).
  - apply (reaches_next Sample.failing_second 2500 [] 1 0).
    + apply reaches_start.
    + reflexivity.
    + reflexivity.
  - reflexivity.
  - left; discriminate.
Defined.

(** ** Queries *)

(** C8, as stated, fails in its second half: a query the engine rejects
    does not return an error condition to the caller. Whatever the message,
    the value returned is the frame [pd.DataFrame()], so nothing read off
    the returned value describes the error; the message goes to
    [st.error]. *)
Lemma query_error_is_not_returned :
  returned (execute_query (Sample.rejecting "near SELEC: syntax error")
              create_tables "SELEC 1") = empty_DataFrame
  /\ returned (execute_query (Sample.rejecting "no such table: artifacts")
                 create_tables "SELECT * FROM artifacts") = empty_DataFrame
  /\ ~ exists describe, describes_errors describe.
Proof.
  split; [reflexivity|]. split; [reflexivity|].
  intros [describe H].
  pose proof (H (Sample.rejecting "near SELEC: syntax error") create_tables
                "SELEC 1" _ eq_refl) as H1.
  pose proof (H (Sample.rejecting "no such table: artifacts") create_tables
                "SELECT * FROM artifacts" _ eq_refl) as H2.
  simpl in H1, H2; rewrite H1 in H2; discriminate.
Qed.

(** C8, amended: [execute_query] returns the frame of the engine as it is,
    with nothing shown, when the query is accepted, so an empty result set
    when no row matches; when the engine rejects the query it shows the
    message with [st.error] and returns an empty frame to the caller, and
    no exception leaves the function. *)
Theorem execute_query_outcomes (read_sql_query : string -> database -> read_outcome)
    (db : database) (query : string) (outcome : read_outcome) :
  read_sql_query query db = outcome ->
  match outcome with
  | Frame df =>
      execute_query read_sql_query db query = QueryReport df []
      /\ (rows df = [] -> empty df = true)
  | QueryException message =>
      execute_query read_sql_query db query
      = QueryReport empty_DataFrame ["Query error: " ++ message]%string
  end.
Proof.
  intros H; unfold execute_query; rewrite H.
  destruct outcome as [df|message]; [|reflexivity].
  split; [reflexivity|].
  unfold empty; intros ->; destruct (columns df); reflexivity.
Qed.

Lemma execute_query_outcomes_witness :
  (execute_query Sample.finding_nothing create_tables
     "SELECT id, title FROM artifact_metadata WHERE id < 0"
   = QueryReport (MkDataFrame ["id"; "title"] []) []
   /\ (rows (MkDataFrame ["id"; "title"] []) = [] ->
       empty (MkDataFrame ["id"; "title"] []) = true))
  /\ execute_query (Sample.rejecting "near SELEC: syntax error") create_tables "SELEC 1"
     = QueryReport empty_DataFrame ["Query error: near SELEC: syntax error"].
Proof.
  split.
  - exact (execute_query_outcomes Sample.finding_nothing create_tables
             "SELECT id, title FROM artifact_metadata WHERE id < 0" _ eq_refl).
  - exact (execute_query_outcomes (Sample.rejecting "near SELEC: syntax error")
             create_tables "SELEC 1" _ eq_refl).
Defined.

(** * Further results *)

(** ** What every batch keeps *)

Lemma insert_loop_accounting (batch : list dict) :
  forall db count errors rep,
    insert_loop batch db count errors = Ok rep ->
    count <= inserted_count rep
    /\ inserted_count rep + Z.of_nat (List.length (reported rep))
       = count + Z.of_nat (List.length errors) + Z.of_nat (List.length batch).
Proof.
  induction batch as [|a batch IH]; simpl List.length; intros db count errors rep H.
  - simpl in H; injection H as <-; simpl; lia.
  - simpl in H.
    destruct (insert_one a db) as [db' [[]|[e| | | | | |]]]; try discriminate;
      apply IH in H as [Hle Heq]; [lia|].
    rewrite length_app in Heq; simpl in Heq; lia.
Qed.

(** X1: when [insert_artifacts] returns, every record of the batch is
    accounted for exactly once: it is counted in the value returned or it
    is one of the errors shown; the count is between 0 and the length of
    the batch. *)
Theorem every_record_counted_or_reported (db : database) (batch : list dict)
    (rep : insert_report) :
  insert_artifacts db batch = Ok rep ->
  inserted_count rep + Z.of_nat (List.length (reported rep))
  = Z.of_nat (List.length batch)
  /\ 0 <= inserted_count rep <= Z.of_nat (List.length batch).
Proof.
  intros H; apply insert_loop_accounting in H as [Hle Heq]; simpl in Heq; lia.
Qed.

Lemma every_record_counted_or_reported_witness :
  inserted_count
    (Sample.after create_tables [Sample.vase; Sample.listed_title; Sample.nameless])
  + Z.of_nat (List.length (reported
      (Sample.after create_tables [Sample.vase; Sample.listed_title; Sample.nameless])))
  = 3
  /\ 0 <= inserted_count
       (Sample.after create_tables [Sample.vase; Sample.listed_title; Sample.nameless])
     <= 3.
Proof.
  apply (every_record_counted_or_reported create_tables
           [Sample.vase; Sample.listed_title; Sample.nameless]).
  vm_compute; reflexivity.
Defined.

Lemma insert_one_appends (a : dict) (db db' : database) (r : result unit) :
  insert_one a db = (db', r) ->
  (exists ms, artifact_media db' = artifact_media db ++ ms)
  /\ (exists cs, artifact_colors db' = artifact_colors db ++ cs).
Proof.
  intros H.
  apply insert_one_shape in H
    as [(-> & _)|(z & cs & _ & _ & _ & _ & [(Hm & _)|Hm] & Hc & _)].
  - split; exists []; rewrite app_nil_r; reflexivity.
  - split; [exists []; rewrite app_nil_r; exact Hm|eexists; exact Hc].
  - split; eexists; eassumption.
Qed.

(** X2: [insert_artifacts] only ever appends to [artifact_media] and
    [artifact_colors]: the rows that were there before the call are still
    there after it, unchanged and in the same order, whatever the batch. *)
Theorem media_and_colors_append_only (db : database) (batch : list dict)
    (rep : insert_report) :
  insert_artifacts db batch = Ok rep ->
  (exists ms, artifact_media (committed rep) = artifact_media db ++ ms)
  /\ (exists cs, artifact_colors (committed rep) = artifact_colors db ++ cs).
Proof.
  intros H.
  apply (insert_loop_invariant
           (fun db' =>
              (exists ms, artifact_media db' = artifact_media db ++ ms)
              /\ (exists cs, artifact_colors db' = artifact_colors db ++ cs))
           batch) with (db := db) (count := 0) (errors := []); [| |exact H].
  - intros a db1 db2 r _ [[ms Hm] [cs Hc]] Hone.
    apply insert_one_appends in Hone as [[ms' Hm'] [cs' Hc']].
    rewrite Hm in Hm'; rewrite Hc in Hc'; rewrite <- app_assoc in Hm', Hc'.
    split; eexists; eassumption.
  - split; exists []; rewrite app_nil_r; reflexivity.
Qed.

Lemma media_and_colors_append_only_witness :
  (exists ms,
      artifact_media
        (committed (Sample.after (committed (Sample.after create_tables [Sample.vase]))
                      [Sample.vase'; Sample.listed_count]))
      = artifact_media (committed (Sample.after create_tables [Sample.vase])) ++ ms)
  /\ (exists cs,
         artifact_colors
           (committed (Sample.after (committed (Sample.after create_tables [Sample.vase]))
                         [Sample.vase'; Sample.listed_count]))
         = artifact_colors (committed (Sample.after create_tables [Sample.vase])) ++ cs).
Proof.
  apply (media_and_colors_append_only
           (committed (Sample.after create_tables [Sample.vase]))
           [Sample.vase'; Sample.listed_count]).
  vm_compute; reflexivity.
Defined.

Lemma insert_one_keeps_ids (a : dict) (db db' : database) (r : result unit) (z : Z) :
  In z (map id (artifact_metadata db)) ->
  insert_one a db = (db', r) ->
  In z (map id (artifact_metadata db')).
Proof.
  intros Hz H.
  apply insert_one_shape in H as [(-> & _)|(z' & cs & _ & _ & _ & Hm & _)];
    [exact Hz|].
  rewrite Hm; apply replace_metadata_keeps_ids, Hz.
Qed.

(** X3: [insert_artifacts] never removes an object: an id that has a row in
    [artifact_metadata] before the call has one after it, whatever the
    batch. *)
Theorem metadata_ids_are_kept (db : database) (batch : list dict)
    (rep : insert_report) (z : Z) :
  In z (map id (artifact_metadata db)) ->
  insert_artifacts db batch = Ok rep ->
  In z (map id (artifact_metadata (committed rep))).
Proof.
  intros Hz H.
  apply (insert_loop_invariant
           (fun db' => In z (map id (artifact_metadata db'))) batch)
    with (db := db) (count := 0) (errors := []); [|exact Hz|exact H].
  intros a db1 db2 r _ Hz1 Hone; eapply insert_one_keeps_ids; eauto.
Qed.

Lemma metadata_ids_are_kept_witness :
  In 1 (map id (artifact_metadata
                  (committed (Sample.after
                                (committed (Sample.after create_tables [Sample.vase]))
                                [Sample.nameless; Sample.vase'; Sample.bare 2])))).
Proof.
  apply (metadata_ids_are_kept
           (committed (Sample.after create_tables [Sample.vase]))
           [Sample.nameless; Sample.vase'; Sample.bare 2]).
  - left; reflexivity.
  - vm_compute; reflexivity.
Defined.

(** X4: the primary key of [artifact_metadata] survives every batch: if no
    two rows share an id before the call, none do after it, also when
    records come without id, repeat an id or fail halfway. *)
Theorem unique_ids_are_kept (db : database) (batch : list dict) (rep : insert_report) :
  unique_ids db ->
  insert_artifacts db batch = Ok rep ->
  unique_ids (committed rep).
Proof.
  intros Hu H.
  apply (insert_loop_invariant unique_ids batch)
    with (db := db) (count := 0) (errors := []); [|exact Hu|exact H].
  intros a db1 db2 r _ Hu1 Hone; eapply insert_one_unique_ids; eauto.
Qed.

Lemma unique_ids_are_kept_witness :
  unique_ids
    (committed (Sample.after create_tables
                  [Sample.nameless; Sample.vase; Sample.vase'; Sample.listed_count;
                   Sample.nameless])).
Proof.
  apply (unique_ids_are_kept create_tables
           [Sample.nameless; Sample.vase; Sample.vase'; Sample.listed_count;
            Sample.nameless]).
  - constructor.
  - vm_compute; reflexivity.
Defined.

(** ** Valid batches *)

Lemma insert_colors_valid_count (a : dict) (s : sqlval) (colors : list value) :
  bind_param 0 (get a "id") = Ok s ->
  forallb valid_color colors = true ->
  forall db,
  exists db',
    insert_colors a colors db = (db', Ok tt)
    /\ artifact_metadata db' = artifact_metadata db
    /\ artifact_media db' = artifact_media db
    /\ List.length (artifact_colors db')
       = (List.length (artifact_colors db) + List.length colors)%nat.
Proof.
  intros Hid; induction colors as [|color colors IH]; simpl; intros Hc db.
  - exists db; repeat split; lia.
  - apply andb_prop in Hc as [Hc Hcs].
    destruct color as [| | | | | |c]; try discriminate.
    destruct (execute_insert_colors_intro a c db s Hid Hc) as (params & Hp & He).
    unfold and_then, lift; rewrite Hp, He.
    destruct (IH Hcs (Database (artifact_metadata db) (artifact_media db)
                               (artifact_colors db ++ [colors_row_of a c])))
      as (db' & H & Hm & Hd & Hl).
    exists db'; repeat split; try assumption.
    rewrite Hl; simpl; rewrite length_app; simpl; lia.
Qed.

Lemma insert_one_valid_count (a : dict) (db : database) (s : sqlval) (z : Z) :
  bind_param 0 (get a "id") = Ok s ->
  rowid_for (artifact_metadata db) s = Ok z ->
  valid_fields a = true ->
  exists db',
    insert_one a db = (db', Ok tt)
    /\ artifact_metadata db'
       = replace_metadata (metadata_row_of z a) (artifact_metadata db)
    /\ artifact_media db' = artifact_media db ++ [media_row_of a]
    /\ List.length (artifact_colors db')
       = (List.length (artifact_colors db) + colour_entries a)%nat.
Proof.
  intros Hid Hz Hv; unfold valid_fields in Hv.
  apply andb_prop in Hv as [Hv Hcolors]; apply andb_prop in Hv as [Hmeta Hmedia].
  unfold insert_one, and_then, colour_entries.
  rewrite (execute_insert_metadata_intro a db s z Hid Hmeta Hz).
  rewrite (execute_insert_media_intro a _ s Hid Hmedia); simpl.
  destruct (truthy (get a "colors")) eqn:Ht.
  - unfold lift; rewrite (truthy_subscript _ _ Ht).
    destruct (get a "colors") as [| | | | |colors|] eqn:E;
      try (rewrite Ht in Hcolors; discriminate).
    simpl.
    destruct (insert_colors_valid_count a s colors Hid Hcolors
                (Database
                   (replace_metadata (metadata_row_of z a) (artifact_metadata db))
                   (artifact_media db ++ [media_row_of a]) (artifact_colors db)))
      as (db' & H & Hm & Hd & Hl).
    exists db'; repeat split; assumption.
  - eexists; split; [reflexivity|]; simpl; repeat split.
    destruct (get a "colors") as [| | | | |[|c colors]|]; simpl in *;
      try lia; discriminate.
Qed.

Lemma valid_record_id (a : dict) :
  valid_record a = true ->
  bind_param 0 (get a "id") = Ok (SInt (record_id a)) /\ valid_fields a = true.
Proof.
  unfold valid_record, record_id; intros H; apply andb_prop in H as [Hid Hv].
  destruct (get a "id") as [|b|i| | | |]; try discriminate; simpl.
  - split; [reflexivity|exact Hv].
  - rewrite Hid; split; [reflexivity|exact Hv].
Qed.

Lemma insert_loop_valid_tables (batch : list dict) :
  forallb valid_record batch = true ->
  forall db count errors,
  exists db',
    insert_loop batch db count errors
    = Ok (InsertReport db' (count + Z.of_nat (List.length batch)) errors)
    /\ artifact_metadata db' = write_all batch (artifact_metadata db)
    /\ List.length (artifact_media db')
       = (List.length (artifact_media db) + List.length batch)%nat
    /\ List.length (artifact_colors db')
       = (List.length (artifact_colors db)
          + list_sum (map colour_entries batch))%nat.
Proof.
  induction batch as [|a batch IH]; simpl; intros Hb db count errors.
  - exists db; rewrite Z.add_0_r, !Nat.add_0_r; repeat split; trivial.
  - apply andb_prop in Hb as [Ha Hb].
    destruct (valid_record_id a Ha) as [Hid Hv].
    destruct (insert_one_valid_count a db (SInt (record_id a)) (record_id a)
                Hid eq_refl Hv) as (db1 & H1 & Hm & Hd & Hc).
    rewrite H1.
    destruct (IH Hb db1 (count + 1) errors) as (db' & H & Hm' & Hd' & Hc').
    exists db'; split; [|split; [|split]].
    + rewrite H; do 2 f_equal; lia.
    + rewrite Hm', Hm; reflexivity.
    + rewrite Hd', Hd, length_app; simpl; lia.
    + rewrite Hc', Hc; lia.
Qed.

(** X5: a batch of valid records with integer ids is inserted in full,
    from any database: the value returned is the length of the batch,
    nothing is reported, [artifact_media] grows by one row per record and
    [artifact_colors] by one row per colour entry. The rows are added on
    every call, so a call on records that are already stored adds their
    media and colour rows again. *)
Theorem valid_batch_is_inserted_in_full (db : database) (batch : list dict) :
  forallb valid_record batch = true ->
  exists rep,
    insert_artifacts db batch = Ok rep
    /\ inserted_count rep = Z.of_nat (List.length batch)
    /\ reported rep = []
    /\ List.length (artifact_media (committed rep))
       = (List.length (artifact_media db) + List.length batch)%nat
    /\ List.length (artifact_colors (committed rep))
       = (List.length (artifact_colors db)
          + list_sum (map colour_entries batch))%nat.
Proof.
  intros Hb.
  destruct (insert_loop_valid_tables batch Hb db 0 []) as (db' & H & _ & Hd & Hc).
  eexists; split; [exact H|]; simpl; repeat split; assumption.
Qed.

Lemma valid_batch_is_inserted_in_full_witness :
  exists rep,
    insert_artifacts (committed (Sample.after create_tables [Sample.vase; Sample.bare 2]))
      [Sample.vase; Sample.bare 2] = Ok rep
    /\ inserted_count rep = 2
    /\ reported rep = []
    /\ List.length (artifact_media (committed rep)) = 4%nat
    /\ List.length (artifact_colors (committed rep)) = 2%nat.
Proof.
  apply (valid_batch_is_inserted_in_full
           (committed (Sample.after create_tables [Sample.vase; Sample.bare 2]))
           [Sample.vase; Sample.bare 2]).
  reflexivity.
Defined.

(** ** Inserting a batch again *)

Lemma filter_none {A : Type} (f : A -> bool) (l : list A) :
  (forall x, In x l -> f x = false) -> filter f l = [].
Proof.
  induction l as [|x l IH]; simpl; intros H; [reflexivity|].
  rewrite (H x (or_introl eq_refl)); apply IH; intros y Hy; apply H; right; exact Hy.
Qed.

Lemma filter_twice {A : Type} (f g : A -> bool) (l : list A) :
  filter f (filter g l) = filter (fun x => g x && f x) l.
Proof.
  induction l as [|x l IH]; simpl; [reflexivity|].
  destruct (g x); simpl; [destruct (f x)|]; rewrite IH; reflexivity.
Qed.

Lemma write_all_split (batch : list dict) :
  forall t,
    write_all batch t
    = filter (fun m => negb (written_by batch m)) t ++ write_all batch [].
Proof.
  induction batch as [|a batch IH]; intros t.
  - simpl. rewrite app_nil_r. induction t as [|m t IHt]; simpl; congruence.
  - unfold write_all; simpl fold_left; fold (write_all batch).
    rewrite (IH (replace_metadata _ t)), (IH (replace_metadata _ [])).
    unfold replace_metadata; simpl filter at 3.
    rewrite filter_app, filter_twice, <- app_assoc; simpl app.
    f_equal. apply filter_ext; intros m; unfold written_by; simpl.
    rewrite negb_orb; reflexivity.
Qed.

Lemma write_all_ids (batch : list dict) :
  forall t m,
    In m (write_all batch t) -> In m t \/ written_by batch m = true.
Proof.
  induction batch as [|a batch IH]; intros t m H; [left; exact H|].
  unfold write_all in H; simpl in H; fold (write_all batch) in H.
  apply IH in H as [H|H].
  - apply in_replace_metadata in H as [[H _]| ->]; [left; exact H|].
    right; unfold written_by; simpl. rewrite Z.eqb_refl; reflexivity.
  - right; unfold written_by in *; simpl; rewrite H; apply orb_true_r.
Qed.

Lemma write_all_again (batch : list dict) (t : list metadata_row) :
  write_all batch (write_all batch t) = write_all batch t.
Proof.
  rewrite (write_all_split batch (write_all batch t)).
  rewrite (write_all_split batch t) at 1.
  rewrite filter_app, filter_twice.
  assert (Hnone : filter (fun m => negb (written_by batch m)) (write_all batch [])
                  = []).
  { apply filter_none; intros m Hm.
    apply write_all_ids in Hm as [[]|Hm]; rewrite Hm; reflexivity. }
  rewrite Hnone, app_nil_r, (write_all_split batch t).
  f_equal. apply filter_ext; intros m; destruct (written_by batch m); reflexivity.
Qed.

(** X6: inserting a batch of valid records with integer ids a second time
    leaves [artifact_metadata] exactly as the first insertion left it: the
    same rows in the same order, whatever the table held before and also
    when the batch repeats an id. *)
Theorem metadata_is_idempotent (db : database) (batch : list dict) :
  forallb valid_record batch = true ->
  exists once twice,
    insert_artifacts db batch = Ok once
    /\ insert_artifacts (committed once) batch = Ok twice
    /\ artifact_metadata (committed twice) = artifact_metadata (committed once).
Proof.
  intros Hb.
  destruct (insert_loop_valid_tables batch Hb db 0 []) as (db1 & H1 & Hm1 & _).
  destruct (insert_loop_valid_tables batch Hb db1 0 []) as (db2 & H2 & Hm2 & _).
  do 2 eexists; split; [exact H1|]; split; [exact H2|]; simpl.
  rewrite Hm2, Hm1; apply write_all_again.
Qed.

Lemma metadata_is_idempotent_witness :
  exists once twice,
    insert_artifacts (committed (Sample.after create_tables [Sample.bare 9]))
      [Sample.vase; Sample.bare 2; Sample.vase'] = Ok once
    /\ insert_artifacts (committed once) [Sample.vase; Sample.bare 2; Sample.vase']
       = Ok twice
    /\ artifact_metadata (committed twice) = artifact_metadata (committed once).
Proof.
  apply (metadata_is_idempotent
           (committed (Sample.after create_tables [Sample.bare 9]))
           [Sample.vase; Sample.bare 2; Sample.vase']).
  reflexivity.
Defined.

(** ** Records without an id, again *)

Lemma filter_all {A : Type} (f : A -> bool) (l : list A) :
  (forall x, In x l -> f x = true) -> filter f l = l.
Proof.
  induction l as [|x l IH]; simpl; intros H; [reflexivity|].
  rewrite (H x (or_introl eq_refl)); f_equal.
  apply IH; intros y Hy; apply H; right; exact Hy.
Qed.

Lemma insert_one_lacks_id (a : dict) (db db' : database) (r : result unit) :
  lacks_id a = true ->
  insert_one a db = (db', r) ->
  exists new_rows, artifact_metadata db' = artifact_metadata db ++ new_rows.
Proof.
  intros Hid H.
  apply insert_one_shape in H as [(-> & _)|(z & cs & _ & _ & Hz & Hm & _)].
  - exists []; rewrite app_nil_r; reflexivity.
  - exists [metadata_row_of z a]; rewrite Hm; unfold replace_metadata; f_equal.
    apply filter_all; intros m Hin; simpl.
    unfold lacks_id, bound in *; destruct (get a "id"); try discriminate.
    simpl in Hz; apply negb_true_iff, Z.eqb_neq.
    eapply new_rowid_fresh; eauto.
Qed.

(** X7: records that come without [id] never replace a stored object: after
    a batch of such records every row that was in [artifact_metadata] is
    still there, unchanged, with the new rows after them. *)
Theorem records_without_id_replace_nothing (db : database) (batch : list dict)
    (rep : insert_report) :
  forallb lacks_id batch = true ->
  insert_artifacts db batch = Ok rep ->
  exists new_rows,
    artifact_metadata (committed rep) = artifact_metadata db ++ new_rows.
Proof.
  intros Hb H; rewrite forallb_forall in Hb.
  apply (insert_loop_invariant
           (fun db' => exists new_rows,
                artifact_metadata db' = artifact_metadata db ++ new_rows) batch)
    with (db := db) (count := 0) (errors := []); [| |exact H].
  - intros a db1 db2 r Hin [rows Hrows] Hone.
    apply (insert_one_lacks_id _ _ _ _ (Hb a Hin)) in Hone as [rows' Hrows'].
    rewrite Hrows, <- app_assoc in Hrows'; eexists; exact Hrows'.
  - exists []; rewrite app_nil_r; reflexivity.
Qed.

Lemma records_without_id_replace_nothing_witness :
  exists new_rows,
    artifact_metadata
      (committed (Sample.after
                    (committed (Sample.after create_tables [Sample.vase; Sample.bare 7]))
                    [Sample.nameless; Sample.nameless]))
    = artifact_metadata (committed (Sample.after create_tables [Sample.vase; Sample.bare 7]))
      ++ new_rows.
Proof.
  apply (records_without_id_replace_nothing
           (committed (Sample.after create_tables [Sample.vase; Sample.bare 7]))
           [Sample.nameless; Sample.nameless]).
  - reflexivity.
  - vm_compute; reflexivity.
Defined.

(** ** Records that fail *)


Lemma bind_from_unsupported (params : list value) :
  forall position,
    existsb unsupported params = true ->
    existsb overflows params = false ->
    exists p, bind_from position params = Raise (SqliteError (UnsupportedType p)).
Proof.
  induction params as [|v params IH]; simpl; intros position Hu Ho; [discriminate|].
  apply orb_false_elim in Ho as [Hv Ho].
  destruct v as [|b|z|f|s|l|d]; simpl in *;
    try (destruct (IH (S position) Hu Ho) as [p ->]; exists p; reflexivity);
    try (eexists; reflexivity).
  apply negb_false_iff in Hv; rewrite Hv; simpl.
  destruct (IH (S position) Hu Ho) as [p ->]; exists p; reflexivity.
Qed.

Lemma insert_one_metadata_raises (a : dict) (db : database) (e : exn) :
  bind_parameters (metadata_params a) = Raise e ->
  insert_one a db = (db, Raise e).
Proof.
  intros H; unfold insert_one, and_then, execute_insert_metadata; rewrite H.
  reflexivity.
Qed.



(** X9: a list or a dictionary in a field of the metadata row makes the
    record fail on its first statement: the record is reported with one
    error and not counted, it writes nothing to any table, and the loop
    goes on. *)
Theorem unsupported_field_skips_record (db : database) (pre : list dict) (a : dict)
    (mid : insert_report) :
  insert_artifacts db pre = Ok mid ->
  existsb unsupported (metadata_params a) = true ->
  existsb overflows (metadata_params a) = false ->
  exists position,
    insert_artifacts db (pre ++ [a])
    = Ok (InsertReport (committed mid) (inserted_count mid)
                       (reported mid ++ [UnsupportedType position])).
Proof.
  intros Hpre Hu Ho; unfold insert_artifacts in *.
  destruct (bind_from_unsupported (metadata_params a) 0 Hu Ho) as [p Hp].
  exists p.
  rewrite (insert_loop_app_ok pre [a] db 0 [] mid Hpre); simpl.
  rewrite (insert_one_metadata_raises a (committed mid) _ Hp); reflexivity.
Qed.

Lemma unsupported_field_skips_record_witness :
  exists position,
    insert_artifacts create_tables ([Sample.vase] ++ [Sample.listed_title])
    = Ok (InsertReport (committed (Sample.after create_tables [Sample.vase]))
                       (inserted_count (Sample.after create_tables [Sample.vase]))
                       (reported (Sample.after create_tables [Sample.vase])
                        ++ [UnsupportedType position])).
Proof.
  apply (unsupported_field_skips_record create_tables [Sample.vase]
           Sample.listed_title (Sample.after create_tables [Sample.vase]));
    vm_compute; reflexivity.
Defined.

Lemma integer_id_bind (a : dict) :
  integer_id a = true ->
  bind_param 0 (get a "id") = Ok (SInt (record_id a)).
Proof.
  unfold integer_id, record_id.
  destruct (get a "id") as [|b|i| | | |]; try discriminate; simpl.
  - reflexivity.
  - intros ->; reflexivity.
Qed.

Lemma insert_colors_bad_entry (a : dict) (s : sqlval) (good rest : list value)
    (bad : value) :
  bind_param 0 (get a "id") = Ok s ->
  forallb valid_color good = true ->
  is_dict bad = false ->
  forall db, exists db', insert_colors a (good ++ bad :: rest) db = (db', Raise AttributeError).
Proof.
  intros Hid Hgood Hbad; induction good as [|c good IH]; simpl; intros db.
  - unfold and_then, lift.
    destruct bad; try discriminate; eexists; reflexivity.
  - simpl in Hgood; apply andb_prop in Hgood as [Hc Hgood].
    destruct c as [| | | | | |c]; try discriminate.
    destruct (execute_insert_colors_intro a c db s Hid Hc) as (params & Hp & He).
    unfold and_then, lift; rewrite Hp, He.
    apply (IH Hgood).
Qed.

(** X10: an entry of [colors] that is not a dictionary is not caught by the
    [except sqlite3.Error] clause: [color.get] raises [AttributeError],
    which leaves [insert_artifacts] at that record, before
    [conn.commit()], although the record's metadata, its media row and the
    colour entries before the bad one were written without error. *)
Theorem malformed_colour_aborts_batch (db : database) (pre post : list dict)
    (a : dict) (mid : insert_report) (good rest : list value) (bad : value) :
  insert_artifacts db pre = Ok mid ->
  integer_id a = true ->
  forallb bindable (tl (metadata_params a)) = true ->
  forallb bindable (tl (media_params a)) = true ->
  get a "colors" = VList (good ++ bad :: rest) ->
  forallb valid_color good = true ->
  is_dict bad = false ->
  insert_artifacts db (pre ++ a :: post) = Raise AttributeError.
Proof.
  intros Hpre Hid Hmeta Hmedia Hcolors Hgood Hbad; unfold insert_artifacts in *.
  rewrite (insert_loop_app_ok pre (a :: post) db 0 [] mid Hpre); simpl.
  pose proof (integer_id_bind a Hid) as Hb.
  unfold insert_one, and_then.
  rewrite (execute_insert_metadata_intro a (committed mid) _ (record_id a)
             Hb Hmeta eq_refl).
  rewrite (execute_insert_media_intro a _ _ Hb Hmedia); simpl.
  assert (Ht : truthy (get a "colors") = true)
    by (rewrite Hcolors; destruct good; reflexivity).
  rewrite Ht; unfold lift; rewrite (truthy_subscript _ _ Ht), Hcolors; simpl.
  match goal with
  | |- context [insert_colors a _ ?d] =>
      destruct (insert_colors_bad_entry a _ good rest bad Hb Hgood Hbad d)
        as [db' ->]
  end.
  reflexivity.
Qed.

Lemma malformed_colour_aborts_batch_witness :
  insert_artifacts create_tables ([Sample.vase] ++ Sample.odd_colour :: [Sample.bare 2])
  = Raise AttributeError.
Proof.
  apply (malformed_colour_aborts_batch create_tables [Sample.vase] [Sample.bare 2]
           Sample.odd_colour (Sample.after create_tables [Sample.vase])
           [Sample.grey] [] (VStr "red"));
    vm_compute; reflexivity.
Defined.

(** X11: a record is not written as a unit. When its metadata statement
    succeeds and a counter of its media statement is a list or a
    dictionary, the record is reported and not counted, but its metadata
    row stays and is committed with the batch, without a media row and
    without colour rows. *)
Theorem failed_media_keeps_metadata (db : database) (pre : list dict) (a : dict)
    (mid : insert_report) :
  insert_artifacts db pre = Ok mid ->
  integer_id a = true ->
  forallb bindable (tl (metadata_params a)) = true ->
  existsb unsupported (media_params a) = true ->
  existsb overflows (media_params a) = false ->
  exists position,
    insert_artifacts db (pre ++ [a])
    = Ok (InsertReport
            (Database
               (replace_metadata (metadata_row_of (record_id a) a)
                  (artifact_metadata (committed mid)))
               (artifact_media (committed mid)) (artifact_colors (committed mid)))
            (inserted_count mid)
            (reported mid ++ [UnsupportedType position])).
Proof.
  intros Hpre Hid Hmeta Hu Ho; unfold insert_artifacts in *.
  destruct (bind_from_unsupported (media_params a) 0 Hu Ho) as [p Hp].
  exists p.
  rewrite (insert_loop_app_ok pre [a] db 0 [] mid Hpre); simpl.
  pose proof (integer_id_bind a Hid) as Hb.
  unfold insert_one, and_then.
  rewrite (execute_insert_metadata_intro a (committed mid) _ (record_id a)
             Hb Hmeta eq_refl).
  unfold execute_insert_media, bind_parameters; rewrite Hp; reflexivity.
Qed.

Lemma failed_media_keeps_metadata_witness :
  exists position,
    insert_artifacts create_tables ([Sample.vase] ++ [Sample.listed_count])
    = Ok (InsertReport
            (Database
               (replace_metadata
                  (metadata_row_of (record_id Sample.listed_count) Sample.listed_count)
                  (artifact_metadata (committed (Sample.after create_tables [Sample.vase]))))
               (artifact_media (committed (Sample.after create_tables [Sample.vase])))
               (artifact_colors (committed (Sample.after create_tables [Sample.vase]))))
            (inserted_count (Sample.after create_tables [Sample.vase]))
            (reported (Sample.after create_tables [Sample.vase])
             ++ [UnsupportedType position])).
Proof.
  apply (failed_media_keeps_metadata create_tables [Sample.vase] Sample.listed_count
           (Sample.after create_tables [Sample.vase]));
    vm_compute; reflexivity.
Defined.

(** ** Counters that are null *)

Lemma has_key_dict_get (d : dict) (key : string) (default : value) :
  has_key d key = true -> dict_get d key default = get d key.
Proof.
  unfold get; induction d as [|[k v] d IH]; simpl; [discriminate|].
  destruct (String.eqb k key); simpl; [reflexivity|exact IH].
Qed.

(** X12: the default 0 of the counters is for absent keys only. A counter
    ([imagecount], [mediacount], [colorcount], [rank], [datebegin],
    [dateend]) that the record has with the value [None] (JSON null) is
    stored as NULL in the record's media row. *)
Theorem null_counter_is_stored_null (db : database) (a : dict) (rep : insert_report)
    (key : string) (column : media_row -> sqlval) :
  In (key, column) counter_columns ->
  has_key a key = true ->
  get a key = VNone ->
  insert_artifacts db [a] = Ok rep ->
  inserted_count rep = 1 ->
  artifact_media (committed rep) = artifact_media db ++ [media_row_of a]
  /\ column (media_row_of a) = SNull.
Proof.
  intros Hcol Hkey Hnull Hrep Hcount.
  pose proof (insert_single_ok _ _ _ Hrep Hcount) as Hone.
  apply insert_one_shape in Hone
    as [(_ & Hr & _)|(z & cs & _ & _ & _ & _ & [(_ & _ & Hr)|Hm] & _)];
    try congruence.
  split; [exact Hm|].
  simpl in Hcol.
  repeat (destruct Hcol as [Hcol|Hcol];
          [injection Hcol as <- <-; simpl;
           rewrite (has_key_dict_get _ _ _ Hkey), Hnull; reflexivity|]).
  contradiction.
Qed.

Lemma null_counter_is_stored_null_witness :
  artifact_media (committed (Sample.after create_tables [Sample.null_counters]))
  = artifact_media create_tables ++ [media_row_of Sample.null_counters]
  /\ rank (media_row_of Sample.null_counters) = SNull.
Proof.
  apply (null_counter_is_stored_null create_tables Sample.null_counters
           (Sample.after create_tables [Sample.null_counters]) "rank" rank).
  - simpl; tauto.
  - reflexivity.
  - reflexivity.
  - vm_compute; reflexivity.
  - reflexivity.
Defined.

(** ** Bounds of the fetch *)

Lemma slice_to_length (l : list value) (limit : Z) :
  0 <= limit -> Z.of_nat (List.length (slice_to l limit)) <= limit.
Proof.
  intros H; unfold slice_to.
  destruct (limit <? 0) eqn:E; [apply Z.ltb_lt in E; lia|].
  rewrite length_firstn; lia.
Qed.

Lemma fetch_loop_bounds (c : catalog) (limit : Z) (fuel : nat) :
  0 <= limit ->
  forall all page calls rep,
    fetch_loop fuel c limit all page calls = Some rep ->
    Z.of_nat (List.length (artifacts rep)) <= limit
    /\ requests rep - calls <= Z.max 0 (limit - Z.of_nat (List.length all))
    /\ (List.length (messages rep) <= 1)%nat.
Proof.
  intros Hlimit; induction fuel as [|fuel IH]; intros all page calls rep; simpl.
  - destruct (Z.of_nat (List.length all) <? limit) eqn:E; [discriminate|].
    intros H; injection H as <-; simpl.
    split; [apply slice_to_length, Hlimit|split; lia].
  - destruct (Z.of_nat (List.length all) <? limit) eqn:E.
    + apply Z.ltb_lt in E.
      destruct (request_page c all page) as [[all'| |status_code]|e] eqn:Hp;
        try (intros H; injection H as <-; simpl;
             split; [apply slice_to_length, Hlimit|split; lia]).
      intros H; apply IH in H as (Ha & Hr & Hm).
      apply request_page_grows in Hp.
      split; [exact Ha|split; [lia|exact Hm]].
    + intros H; injection H as <-; simpl.
      split; [apply slice_to_length, Hlimit|split; lia].
Qed.

(** X13: [fetch_artifacts] never returns more records than asked for, on
    any catalog: the list returned has at most [limit] elements, and none
    when [limit] is zero or negative. *)
Theorem fetch_returns_at_most_limit (c : catalog) (limit : Z) (rep : fetch_report) :
  fetch_artifacts c limit = Some rep ->
  Z.of_nat (List.length (artifacts rep)) <= Z.max 0 limit.
Proof.
  intros H; destruct (Z.le_gt_cases 0 limit) as [Hle|Hlt].
  - apply (fetch_loop_bounds c limit _ Hle) in H as [H _]; lia.
  - unfold fetch_artifacts in H; simpl in H.
    destruct (0 <? limit) eqn:E; [apply Z.ltb_lt in E; lia|].
    injection H as <-; simpl. unfold slice_to; destruct (limit <? 0); simpl;
      rewrite firstn_nil; simpl; lia.
Qed.

Lemma fetch_returns_at_most_limit_witness :
  Z.of_nat (List.length
              (artifacts (FetchReport (repeat (VDict Sample.vase) 250) 3 [])))
  <= Z.max 0 250.
Proof.
  apply (fetch_returns_at_most_limit Sample.endless 250).
  vm_compute; reflexivity.
Defined.

(** X14: the number of page requests is bounded by the target: a call of
    [fetch_artifacts] makes at most [limit] requests, and none when [limit]
    is zero or negative, however the catalog answers; and it shows at most
    one error message. *)
Theorem fetch_makes_at_most_limit_requests (c : catalog) (limit : Z)
    (rep : fetch_report) :
  fetch_artifacts c limit = Some rep ->
  0 <= requests rep <= Z.max 0 limit
  /\ (List.length (messages rep) <= 1)%nat.
Proof.
  intros H; destruct (Z.le_gt_cases 0 limit) as [Hle|Hlt].
  - pose proof (fetch_loop_requests _ _ _ _ _ _ _ H) as [Hge _].
    apply (fetch_loop_bounds c limit _ Hle) in H as (_ & Hr & Hm).
    simpl in Hr; split; [lia|exact Hm].
  - unfold fetch_artifacts in H; simpl in H.
    destruct (0 <? limit) eqn:E; [apply Z.ltb_lt in E; lia|].
    injection H as <-; simpl; split; lia.
Qed.

Lemma fetch_makes_at_most_limit_requests_witness :
  0 <= requests (FetchReport (repeat (VDict Sample.vase) 250) 3 []) <= Z.max 0 250
  /\ (List.length (messages (FetchReport (repeat (VDict Sample.vase) 250) 3 [])) <= 1)%nat.
Proof.
  apply (fetch_makes_at_most_limit_requests Sample.endless 250).
  vm_compute; reflexivity.
Defined.

(** ** Ends of the fetch *)

Lemma fetch_loop_done (c : catalog) (limit : Z) (fuel : nat) (all : list value)
    (page calls : Z) :
  limit <= Z.of_nat (List.length all) ->
  fetch_loop fuel c limit all page calls
  = Some (FetchReport (slice_to all limit) calls []).
Proof.
  intros H; apply Z.ltb_ge in H; destruct fuel; simpl; rewrite H; reflexivity.
Qed.

Lemma served_from_app (c : catalog) (pages : list (list value)) (last : list value) :
  forall page,
    served_from c page (pages ++ [last]) ->
    served_from c page pages
    /\ serves c (page + Z.of_nat (List.length pages)) last.
Proof.
  induction pages as [|p pages IH]; simpl; intros page H.
  - rewrite Z.add_0_r; tauto.
  - destruct H as [Hp H]; apply IH in H as [Hs Hl].
    replace (page + Z.pos (Pos.of_succ_nat (List.length pages)))
      with (page + 1 + Z.of_nat (List.length pages)) by lia.
    tauto.
Qed.

(** X15: when the catalog serves page after page and the page that reaches
    the target is the n-th, [fetch_artifacts] makes exactly n requests,
    shows no message and returns the first [limit] records of the pages in
    the order served; the records of the last page beyond the target are
    dropped. *)
Theorem fetch_stops_at_target (c : catalog) (limit : Z) (pages : list (list value))
    (last : list value) :
  served_from c 1 (pages ++ [last]) ->
  Z.of_nat (List.length (List.concat pages)) < limit ->
  limit <= Z.of_nat (List.length (List.concat pages ++ last)) ->
  fetch_artifacts c limit
  = Some (FetchReport (firstn (Z.to_nat limit) (List.concat pages ++ last))
                      (Z.of_nat (List.length pages) + 1) []).
Proof.
  intros Hs Hlt Hge.
  apply served_from_app in Hs as [Hs Hlast].
  pose proof (reaches_served c limit pages [] 1 0 (reaches_start c limit) Hs Hlt)
    as Hr; simpl in Hr.
  destruct (reaches_fetch_loop _ _ _ _ _ Hr) as (fuel & -> & Hfuel).
  destruct fuel as [|fuel]; [lia|]; simpl.
  pose proof Hlt as Hlt'; apply Z.ltb_lt in Hlt'; rewrite Hlt'.
  rewrite (request_page_serves _ _ _ _ Hlast).
  rewrite (fetch_loop_done c limit fuel _ _ _ Hge).
  unfold slice_to.
  destruct (limit <? 0) eqn:E; [apply Z.ltb_lt in E; lia|].
  do 2 f_equal; lia.
Qed.

Lemma fetch_stops_at_target_witness :
  fetch_artifacts Sample.endless 250
  = Some (FetchReport
            (firstn (Z.to_nat 250)
               (List.concat [repeat (VDict Sample.vase) 100; repeat (VDict Sample.vase) 100]
                ++ repeat (VDict Sample.vase) 100))
            (Z.of_nat (List.length [repeat (VDict Sample.vase) 100;
                                    repeat (VDict Sample.vase) 100]) + 1) []).
Proof.
  apply (fetch_stops_at_target Sample.endless 250
           [repeat (VDict Sample.vase) 100; repeat (VDict Sample.vase) 100]
           (repeat (VDict Sample.vase) 100)).
  - simpl; repeat split; try (eexists; repeat split; discriminate).
  - vm_compute; reflexivity.
  - vm_compute; discriminate.
Defined.

(** X16: a page without records (status 200, [records] absent, null or
    empty) ends the fetch without any message: [fetch_artifacts] returns
    exactly the records of the pages before it, after that one request
    more. *)
Theorem empty_page_ends_fetch (c : catalog) (limit : Z) (all : list value)
    (page calls : Z) :
  reaches c limit all page calls ->
  Z.of_nat (List.length all) < limit ->
  exhausted c page ->
  fetch_artifacts c limit = Some (FetchReport all (calls + 1) []).
Proof.
  intros Hr Hlt Hex.
  destruct (reaches_fetch_loop _ _ _ _ _ Hr) as (fuel & -> & Hfuel).
  destruct fuel as [|fuel]; [lia|]; simpl.
  rewrite slice_to_all by lia.
  apply Z.ltb_lt in Hlt; rewrite Hlt.
  rewrite (request_page_exhausted _ _ _ Hex); reflexivity.
Qed.

Lemma empty_page_ends_fetch_witness :
  fetch_artifacts Sample.short_third 2500
  = Some (FetchReport (repeat (VDict Sample.vase) 250) (3 + 1) []).
Proof.
  apply (empty_page_ends_fetch Sample.short_third 2500
           (repeat (VDict Sample.vase) 250) 4 3).
  - apply (reaches_next Sample.short_third 2500 (repeat (VDict Sample.vase) 200) 3 2).
    + apply (reaches_next Sample.short_third 2500 (repeat (VDict Sample.vase) 100) 2 1).
      * apply (reaches_next Sample.short_third 2500 [] 1 0);
          [apply reaches_start|reflexivity|reflexivity].
      * reflexivity.
      * reflexivity.
    + reflexivity.
    + reflexivity.
  - reflexivity.
  - eexists; split; reflexivity.
Defined.

(** X17: a request that gets no answer, and an answer whose JSON is not an
    object, end the fetch like a failed status: the exception is caught,
    one message is shown and [fetch_artifacts] returns the records of the
    pages before. *)
Theorem broken_answer_ends_fetch (c : catalog) (limit : Z) (all : list value)
    (page calls : Z) :
  reaches c limit all page calls ->
  Z.of_nat (List.length all) < limit ->
  c page = NoAnswer
  \/ (exists data, c page = Response 200 (Parsed data) /\ is_dict data = false) ->
  exists e,
    fetch_artifacts c limit = Some (FetchReport all (calls + 1) [ErrorMessage e]).
Proof.
  intros Hr Hlt Hc.
  destruct (reaches_fetch_loop _ _ _ _ _ Hr) as (fuel & -> & Hfuel).
  destruct fuel as [|fuel]; [lia|]; simpl.
  rewrite slice_to_all by lia.
  apply Z.ltb_lt in Hlt; rewrite Hlt.
  unfold request_page.
  destruct Hc as [->|(data & -> & Hd)]; [eexists; reflexivity|].
  destruct data; try discriminate; eexists; reflexivity.
Qed.

Lemma broken_answer_ends_fetch_witness :
  (exists e,
      fetch_artifacts Sample.unreachable 2500
      = Some (FetchReport [] (0 + 1) [ErrorMessage e]))
  /\ (exists e,
         fetch_artifacts Sample.array_second 2500
         = Some (FetchReport (repeat (VDict Sample.vase) 100) (1 + 1) [ErrorMessage e])).
Proof.
  split.
  - apply (broken_answer_ends_fetch Sample.unreachable 2500 [] 1 0);
      [apply reaches_start|reflexivity|left; reflexivity].
  - apply (broken_answer_ends_fetch Sample.array_second 2500
             (repeat (VDict Sample.vase) 100) 2 1).
    + apply (reaches_next Sample.array_second 2500 [] 1 0);
        [apply reaches_start|reflexivity|reflexivity].
    + reflexivity.
    + right; eexists; split; reflexivity.
Defined.

(** ** Collecting the same records again and again *)

(** X18: saving the same batch of valid records [n] times, [n] at least 1,
    leaves [artifact_metadata] as one insertion leaves it, but
    [artifact_media] with [n] rows per record and [artifact_colors] with
    [n] rows per colour entry: each further call adds the media and colour
    rows of the batch once more. *)
Theorem repeated_insertion_accumulates (n : nat) (db : database) (batch : list dict) :
  forallb valid_record batch = true ->
  exists db',
    insert_times (S n) db batch = Ok db'
    /\ artifact_metadata db' = write_all batch (artifact_metadata db)
    /\ List.length (artifact_media db')
       = (List.length (artifact_media db) + S n * List.length batch)%nat
    /\ List.length (artifact_colors db')
       = (List.length (artifact_colors db)
          + S n * list_sum (map colour_entries batch))%nat.
Proof.
  intros Hb; revert db; induction n as [|n IH]; intros db.
  - destruct (insert_loop_valid_tables batch Hb db 0 []) as (db1 & H1 & Hm & Hd & Hc).
    exists db1; simpl; unfold insert_artifacts; rewrite H1; simpl.
    repeat split; [exact Hm|lia|lia].
  - destruct (insert_loop_valid_tables batch Hb db 0 []) as (db1 & H1 & Hm & Hd & Hc).
    destruct (IH db1) as (db' & H & Hm' & Hd' & Hc').
    exists db'.
    change (insert_times (S (S n)) db batch)
      with (match insert_artifacts db batch with
            | Ok rep => insert_times (S n) (committed rep) batch
            | Raise e => Raise e
            end).
    unfold insert_artifacts at 1; rewrite H1; simpl committed.
    split; [exact H|].
    split; [rewrite Hm', Hm; apply write_all_again|].
    split; [rewrite Hd', Hd|rewrite Hc', Hc]; lia.
Qed.

Lemma repeated_insertion_accumulates_witness :
  exists db',
    insert_times 3 create_tables [Sample.vase; Sample.bare 2] = Ok db'
    /\ artifact_metadata db'
       = write_all [Sample.vase; Sample.bare 2] (artifact_metadata create_tables)
    /\ List.length (artifact_media db') = 6%nat
    /\ List.length (artifact_colors db') = 3%nat.
Proof.
  apply (repeated_insertion_accumulates 2 create_tables [Sample.vase; Sample.bare 2]).
  reflexivity.
Defined.

(** ** Colours without an object *)

(** X19: every record that comes without [id] and with at least one colour
    entry breaks referential completeness: when its fields are valid, the
    record is counted as inserted and its colour rows are stored with a
    NULL [objectid], so the database it leaves is not referentially
    complete, whatever it was before. *)
Theorem colours_without_id_are_orphans (db : database) (a : dict) :
  lacks_id a = true ->
  valid_fields a = true ->
  (0 < colour_entries a)%nat ->
  exists rep,
    insert_artifacts db [a] = Ok rep
    /\ inserted_count rep = 1
    /\ referentially_complete (committed rep) = false.
Proof.
  intros Hid Hv Hn.
  destruct (new_rowid_returns (artifact_metadata db)) as [z Hz].
  assert (Hb : bind_param 0 (get a "id") = Ok SNull).
  { unfold lacks_id in Hid; destruct (get a "id"); try discriminate; reflexivity. }
  destruct (insert_one_valid_count a db SNull z Hb Hz Hv) as (db' & H1 & _ & _ & Hl).
  unfold insert_artifacts; simpl; rewrite H1.
  eexists; split; [reflexivity|]; simpl; split; [reflexivity|].
  apply insert_one_shape in H1
    as [(_ & Hr & _)|(z' & cs & _ & _ & _ & _ & _ & Hc & _)]; [congruence|].
  rewrite Hc, length_app, length_map in Hl.
  destruct cs as [|c cs]; [simpl in Hl; lia|].
  unfold referentially_complete; rewrite Hc, forallb_app; simpl.
  rewrite (bind_param_bound _ _ _ Hb) in Hb.
  assert (Hnull : bound (get a "id") = SNull).
  { unfold lacks_id in Hid; unfold bound.
    destruct (get a "id"); try discriminate; reflexivity. }
  rewrite Hnull.
  assert (Hno : existsb (fun m => references SNull (id m)) (artifact_metadata db')
                = false).
  { clear; induction (artifact_metadata db'); simpl; auto. }
  rewrite Hno; simpl; apply andb_false_r.
Qed.

Lemma colours_without_id_are_orphans_witness :
  exists rep,
    insert_artifacts (committed (Sample.after create_tables [Sample.vase]))
      [Sample.nameless] = Ok rep
    /\ inserted_count rep = 1
    /\ referentially_complete (committed rep) = false.
Proof.
  apply (colours_without_id_are_orphans
           (committed (Sample.after create_tables [Sample.vase])) Sample.nameless);
    try reflexivity.
  vm_compute; lia.
Defined.
